(** * A shallow embedding of [train.py], the PFLD training script

    The script parses its command line, builds the backbone and the
    auxiliary network, and runs the epoch loop: one training pass, one
    checkpoint, one validation pass, one scheduler step, scalar logging.

    The numerical work (forward passes, the loss module, automatic
    differentiation, Adam, the plateau scheduler, the data loaders) is done
    by PyTorch; here these are parameters of a section.  What is embedded
    is the code of the script itself: its control flow, the state it
    threads through the framework objects, the values it passes on, and the
    exceptions it can raise.  Real numbers stand for floating-point values;
    a separate [NaN] stands for the result of a mean over nothing.  The
    lines that the script writes through [logging] are left out. *)

From Stdlib Require Import List String Ascii ZArith QArith Bool Lia.
From Stdlib Require Import Numbers.DecimalString Numbers.DecimalPos.
From Stdlib Require Import Lists.Finite.
Import ListNotations.

Local Open Scope string_scope.
Local Open Scope Z_scope.

(** ** Python values the script handles *)

(** The exceptions that the script, or a builtin it calls, can raise. *)
Inductive exn : Type :=
| ArgumentTypeError (msg : string)   (* raised by [str2bool] *)
| ValueError                         (* [int(x)] on a malformed GPU id *)
| UnboundLocalError (var : string)   (* a local read before assignment *)
| FileNotFoundError (path : string)  (* a file or directory is missing *)
| SystemExit (code : Z).             (* [parser.error]: usage message, exit 2 *)

Inductive result (A : Type) : Type :=
| Returns (a : A)
| Raises (e : exn).
Arguments Returns {A} a.
Arguments Raises {A} e.

(** A Python float, idealised: a rational, or NaN. *)
Inductive pyfloat : Type :=
| Fin (q : Q)
| NaN.

(** The value of [args.base_lr]: an [int] when converted from the command
    line, the float default otherwise. *)
Inductive number : Type :=
| PyInt (z : Z)
| PyFloat (f : pyfloat).

(** ** Strings *)
Module PyStr.

(** [str.lower] on ASCII text.  Bytes outside ASCII are kept: no
    character outside ASCII lower-cases to a letter of the words that
    [str2bool] accepts. *)
Definition lower_char (c : ascii) : ascii :=
  let n := nat_of_ascii c in
  if (65 <=? n)%nat && (n <=? 90)%nat then ascii_of_nat (n + 32) else c.

Fixpoint lower (s : string) : string :=
  match s with
  | EmptyString => EmptyString
  | String c r => String (lower_char c) (lower r)
  end.

(** [x in t] for a tuple of strings: equality with each element in turn. *)
Definition py_in (x : string) (t : list string) : bool :=
  existsb (String.eqb x) t.

(** [str(n)] for an [int]. *)
Definition str (n : Z) : string := NilZero.string_of_int (Z.to_int n).

Definition startswith_sep (s : string) : bool :=
  match s with
  | String c _ => Ascii.eqb c "/"
  | EmptyString => false
  end.

Fixpoint endswith_sep (s : string) : bool :=
  match s with
  | EmptyString => false
  | String c EmptyString => Ascii.eqb c "/"
  | String _ r => endswith_sep r
  end.

(** [os.path.join(a, b)] of [posixpath], for two components. *)
Definition os_path_join (a b : string) : string :=
  if startswith_sep b then b
  else if String.eqb a EmptyString || endswith_sep a then a ++ b
  else a ++ "/" ++ b.

(** [s.split(',')]. *)
Fixpoint split_comma (s : string) : list string :=
  match s with
  | EmptyString => [EmptyString]
  | String c r =>
      let parts := split_comma r in
      if Ascii.eqb c "," then EmptyString :: parts
      else match parts with
           | h :: t => String c h :: t
           | [] => [String c EmptyString]
           end
  end.

(** *** [int(s)] on ASCII text

    Leading and trailing white space (space, tab, line feed, vertical tab,
    form feed, carriage return) is skipped, one sign is allowed, then
    decimal digits, single underscores allowed between digits. *)
Definition is_space (c : ascii) : bool :=
  let n := nat_of_ascii c in
  ((9 <=? n)%nat && (n <=? 13)%nat) || (n =? 32)%nat.

Definition digit_val (c : ascii) : option Z :=
  let n := nat_of_ascii c in
  if (48 <=? n)%nat && (n <=? 57)%nat then Some (Z.of_nat (n - 48)) else None.

Fixpoint lstrip (s : string) : string :=
  match s with
  | EmptyString => EmptyString
  | String c r => if is_space c then lstrip r else s
  end.

Fixpoint all_space (s : string) : bool :=
  match s with
  | EmptyString => true
  | String c r => is_space c && all_space r
  end.

(** What the scanner saw last. *)
Inductive seen : Type := SeenNothing | SeenDigit | SeenUnderscore.

Fixpoint digits (acc : Z) (prev : seen) (s : string) : option Z :=
  match s with
  | EmptyString =>
      match prev with SeenDigit => Some acc | _ => None end
  | String c r =>
      match digit_val c with
      | Some d => digits (10 * acc + d) SeenDigit r
      | None =>
          match prev with
          | SeenDigit =>
              if Ascii.eqb c "_" then digits acc SeenUnderscore r
              else if is_space c && all_space r then Some acc
              else None
          | _ => None
          end
      end
  end.

Definition int (s : string) : option Z :=
  match lstrip s with
  | String "-" r => option_map Z.opp (digits 0 SeenNothing r)
  | String "+" r => digits 0 SeenNothing r
  | t => digits 0 SeenNothing t
  end.

(** The string holds a decimal point. *)
Fixpoint has_point (s : string) : bool :=
  match s with
  | EmptyString => false
  | String c r => Ascii.eqb c "." || has_point r
  end.

End PyStr.

(** ** [str2bool] *)

Definition true_words : list string := ["yes"; "true"; "t"; "y"; "1"].
Definition false_words : list string := ["no"; "false"; "f"; "n"; "0"].

Definition str2bool (v : string) : result bool :=
  if PyStr.py_in (PyStr.lower v) true_words then Returns true
  else if PyStr.py_in (PyStr.lower v) false_words then Returns false
  else Raises (ArgumentTypeError "Boolean value expected").

(** ** The command line *)

(** Sequencing of computations that may raise. *)
Definition rbind {A B : Type} (c : result A) (k : A -> result B) : result B :=
  match c with
  | Returns a => k a
  | Raises e => Raises e
  end.

Declare Scope result_scope.
Delimit Scope result_scope with result.
Notation "x <~ c ; k" := (rbind c (fun x => k))
  (at level 61, c at next level, right associativity) : result_scope.

(** The namespace that [parse_args] returns. *)
Record Args : Type := {
  workers : Z;
  devices_id : string;
  test_initial : bool;
  base_lr : number;
  weight_decay : pyfloat;
  lr_patience : Z;
  start_epoch : Z;
  end_epoch : Z;
  snapshot : string;
  log_file : string;
  tensorboard : string;
  resume : string;
  dataroot : string;
  val_dataroot : string;
  train_batchsize : Z;
  val_batchsize : Z
}.

(** The command line as argparse sees it once it is split into options: the
    occurrences in order, each with the [dest] of its option (the option
    that a flag or an abbreviation of it stands for) and its argument
    string.  The parser's own [-h], which prints the usage and exits, is
    not an option with a value and is not part of these command lines. *)
Definition cmdline : Type := list (string * string).

Definition known_dests : list string :=
  ["workers"; "devices_id"; "test_initial"; "base_lr"; "weight_decay";
   "lr_patience"; "start_epoch"; "end_epoch"; "snapshot"; "log_file";
   "tensorboard"; "resume"; "dataroot"; "val_dataroot"; "train_batchsize";
   "val_batchsize"].

Definition occurrences (cl : cmdline) (dest : string) : list string :=
  map snd (filter (fun p => String.eqb (fst p) dest) cl).

(** Every occurrence of an option is converted by its [type]; a conversion
    that raises makes argparse print its usage and exit with status 2.  The
    last occurrence is the one stored; without any, the default stays. *)
Fixpoint convert_all {A : Type} (type : string -> option A) (vs : list string)
    (current : A) : result A :=
  match vs with
  | [] => Returns current
  | v :: r =>
      match type v with
      | Some x => convert_all type r x
      | None => Raises (SystemExit 2)
      end
  end.

Definition add_argument {A : Type} (cl : cmdline) (dest : string)
    (default : A) (type : string -> option A) : result A :=
  convert_all type (occurrences cl dest) default.

Definition type_int (s : string) : option Z := PyStr.int s.
Definition type_str (s : string) : option string := Some s.
Definition type_str2bool (s : string) : option bool :=
  match str2bool s with
  | Returns b => Some b
  | Raises _ => None
  end.
(** [--base_lr] is declared with [type=int]. *)
Definition type_base_lr (s : string) : option number :=
  option_map PyInt (PyStr.int s).

(** [py_float] is [float(s)], the [type] of [--weight-decay]. *)
Definition parse_args (py_float : string -> option pyfloat) (cl : cmdline)
    : result Args :=
  (if forallb (fun p => PyStr.py_in (fst p) known_dests) cl
   then
     a_workers <~ add_argument cl "workers" 16 type_int;
     a_devices_id <~ add_argument cl "devices_id" "0" type_str;
     (* the string default 'false' goes through str2bool *)
     a_test_initial <~ add_argument cl "test_initial" false type_str2bool;
     a_base_lr <~ add_argument cl "base_lr"
                    (PyFloat (Fin (1 # 10000))) type_base_lr;
     a_weight_decay <~ add_argument cl "weight_decay"
                         (Fin (1 # 1000000)) py_float;
     a_lr_patience <~ add_argument cl "lr_patience" 40 type_int;
     a_start_epoch <~ add_argument cl "start_epoch" 1 type_int;
     a_end_epoch <~ add_argument cl "end_epoch" 1000 type_int;
     a_snapshot <~ add_argument cl "snapshot"
                     "./checkpoint/snapshot/" type_str;
     a_log_file <~ add_argument cl "log_file"
                     "./checkpoint/train.logs" type_str;
     a_tensorboard <~ add_argument cl "tensorboard"
                        "./checkpoint/tensorboard" type_str;
     a_resume <~ add_argument cl "resume" EmptyString type_str;
     a_dataroot <~ add_argument cl "dataroot"
                     "./data/train_data/list.txt" type_str;
     a_val_dataroot <~ add_argument cl "val_dataroot"
                         "./data/test_data/list.txt" type_str;
     a_train_batchsize <~ add_argument cl "train_batchsize" 128 type_int;
     a_val_batchsize <~ add_argument cl "val_batchsize" 8 type_int;
     Returns {| workers := a_workers; devices_id := a_devices_id;
                test_initial := a_test_initial; base_lr := a_base_lr;
                weight_decay := a_weight_decay;
                lr_patience := a_lr_patience;
                start_epoch := a_start_epoch; end_epoch := a_end_epoch;
                snapshot := a_snapshot; log_file := a_log_file;
                tensorboard := a_tensorboard; resume := a_resume;
                dataroot := a_dataroot; val_dataroot := a_val_dataroot;
                train_batchsize := a_train_batchsize;
                val_batchsize := a_val_batchsize |}
   else Raises (SystemExit 2))%result.



(** ** Numbers and tensors *)

Definition Qsum (l : list Q) : Q := fold_right Qplus 0%Q l.

(** The arithmetic mean of the values: their sum over their number.  Over
    no value at all it is NaN, as [torch.mean] and [np.mean] return. *)
Definition arithmetic_mean (l : list Q) : pyfloat :=
  match l with
  | [] => NaN
  | _ => Fin (Qsum l / inject_Z (Z.of_nat (List.length l)))%Q
  end.

Fixpoint all_finite (l : list pyfloat) : option (list Q) :=
  match l with
  | [] => Some []
  | Fin q :: r => option_map (cons q) (all_finite r)
  | NaN :: _ => None
  end.

(** [np.mean] of a list of scalars. *)
Definition np_mean (l : list pyfloat) : pyfloat :=
  match all_finite l with
  | Some qs => arithmetic_mean qs
  | None => NaN
  end.

Fixpoint zip_with {A B C : Type} (f : A -> B -> C) (a : list A) (b : list B)
    : list C :=
  match a, b with
  | x :: a', y :: b' => f x y :: zip_with f a' b'
  | _, _ => []
  end.

(** A batch of landmark vectors: one row per sample, one column per
    coordinate.  The backbone's output has the shape of the ground truth. *)
Definition tensor : Type := list (list Q).

Definition tensor_sub (a b : tensor) : tensor := zip_with (zip_with Qminus) a b.
Definition tensor_square (a : tensor) : tensor := map (map (fun x => x * x)%Q) a.
(** [torch.sum(t, axis=1)]: one sum per row. *)
Definition torch_sum_axis1 (a : tensor) : list Q := map Qsum a.
(** [torch.mean] of a vector. *)
Definition torch_mean (v : list Q) : pyfloat := arithmetic_mean v.

(** Modelled from the spec: [AverageMeter] of [utils.utils], which is not
    part of the sources at hand.  The spec describes it as an accumulator of
    scalar loss values whose reported mean is the arithmetic mean of all
    values passed to it since the last reset. *)
Record AverageMeter : Type := { passed : list pyfloat }.
Definition new_meter : AverageMeter := {| passed := [] |}.
Definition meter_update (m : AverageMeter) (v : pyfloat) : AverageMeter :=
  {| passed := (passed m ++ [v])%list |}.
Definition meter_avg (m : AverageMeter) : pyfloat := np_mean (passed m).

(** [range(a, b)]. *)
Definition py_range (a b : Z) : list Z :=
  map (fun i => a + Z.of_nat i) (seq 0 (Z.to_nat (b - a))).

(** [[int(x) for x in s.split(',')]]. *)
Fixpoint int_all (l : list string) : option (list Z) :=
  match l with
  | [] => Some []
  | x :: r =>
      match PyStr.int x with
      | Some z => option_map (cons z) (int_all r)
      | None => None
      end
  end.

Definition parse_gpus (ids : string) : option (list Z) :=
  int_all (PyStr.split_comma ids).

Definition checkpoint_basename (epoch : Z) : string :=
  "checkpoint_epoch_" ++ PyStr.str epoch ++ ".pth.tar".

(** The [filename] that [main] computes for an epoch. *)
Definition checkpoint_filename (snap : string) (epoch : Z) : string :=
  PyStr.os_path_join snap (checkpoint_basename epoch).

(** The landmark error of a batch in the words of the specification: for
    each sample the sum over the coordinates of the squared difference
    between ground truth and prediction, and the mean of these sums over
    the samples of the batch. *)
Definition squared_error_sum (gt pred : list Q) : Q :=
  Qsum (zip_with (fun g p => (g - p) * (g - p))%Q gt pred).
Definition batch_landmark_error (gt pred : tensor) : pyfloat :=
  arithmetic_mean (zip_with squared_error_sum gt pred).

(** The separator that [os.path.join] puts after its first component. *)
Definition join_separator (a : string) : string :=
  if String.eqb a EmptyString || PyStr.endswith_sep a then EmptyString
  else "/".

Inductive net : Type := Backbone | Auxiliary.

(** ** The training script over the framework *)

Record Batch (image attr euler : Type) : Type := {
  img : image;
  landmark_gt : tensor;
  attribute_gt : attr;
  euler_angle_gt : euler
}.
Arguments img {image attr euler} b.
Arguments landmark_gt {image attr euler} b.
Arguments attribute_gt {image attr euler} b.
Arguments euler_angle_gt {image attr euler} b.

(** A checkpoint as [main] writes it. *)
Record checkpoint (state_dict : Type) : Type := {
  ck_epoch : Z;
  ck_plfd_backbone : state_dict;
  ck_auxiliarynet : state_dict
}.
Arguments ck_epoch {state_dict} c.
Arguments ck_plfd_backbone {state_dict} c.
Arguments ck_auxiliarynet {state_dict} c.

(** *** What PyTorch and the machine supply *)
Class Torch : Type := {
  image : Type;
  attr : Type;
  euler : Type;
  feat : Type;
  angle : Type;
  (** The named tensors of a module ([state_dict()]): parameters and buffers. *)
  state_dict : Type;
  gradients : Type;
  opt_state : Type;
  sched_state : Type;
  (** A forward pass of a module in training mode may update its buffers
      (running statistics); in evaluation mode it only reads its tensors. *)
  backbone_train : state_dict -> image -> (feat * tensor) * state_dict;
  backbone_eval : state_dict -> image -> feat * tensor;
  auxiliary_train : state_dict -> feat -> angle * state_dict;
  auxiliary_eval : state_dict -> feat -> angle;
  (** [PFLDLoss()]: the weighted loss and the plain loss. *)
  criterion :
    attr -> tensor -> euler -> angle -> tensor -> Z -> pyfloat * pyfloat;
  (** [weighted_loss.backward()]: the gradients, from the tensors and modes
      of both modules at the forward pass, and the batch. *)
  autograd :
    state_dict -> bool -> state_dict -> bool -> Batch image attr euler -> Z ->
    gradients;
  adam_init : number -> pyfloat -> opt_state;
  adam_step :
    opt_state -> gradients -> state_dict -> state_dict ->
    opt_state * (state_dict * state_dict);
  plateau_init : Z -> sched_state;
  plateau_step :
    sched_state -> opt_state -> pyfloat -> sched_state * opt_state;
  (** The tensors of the freshly built modules. *)
  backbone_init : state_dict;
  auxiliary_init : state_dict;
  (** The training [DataLoader] shuffles: each pass over it yields its own
      batches (by batch size and number of the pass).  The validation
      loader does not shuffle. *)
  train_dataloader : Z -> nat -> list (Batch image attr euler);
  val_dataloader : Z -> list (Batch image attr euler);
  (** Whether the file of this name can be created: [torch.save] raises
      when it cannot, as for a directory that does not exist. *)
  can_write : string -> bool;
  (** [float(s)], the [type] of [--weight-decay]. *)
  py_float : string -> option pyfloat
}.

Section Script.

Context {T : Torch}.

Definition batch : Type := Batch image attr euler.

(** [torch.load]: the checkpoint files present when the run starts. *)
Definition disk : Type := string -> option (checkpoint state_dict).

(** *** The mutable objects and the observable calls *)

Record world : Type := {
  backbone_sd : state_dict;
  backbone_training : bool;
  auxiliary_sd : state_dict;
  auxiliary_training : bool;
  optimizer : opt_state;
  scheduler : sched_state;
  loader_passes : nat
}.

Inductive event : Type :=
| EvSetCudaVisible (gpus : string)
| EvEval (m : net)
| EvBackboneForward (x : image) (training grad : bool)
| EvAuxiliaryForward (x : feat) (training grad : bool)
| EvZeroGrad
| EvBackward
| EvOptimizerStep
| EvTrain (epoch : Z)
| EvSaveCheckpoint (filename : string) (ck : checkpoint state_dict)
| EvValidate (epoch : Z)
| EvSchedulerStep (metric : pyfloat)
| EvAddScalar (tag : string) (v : pyfloat) (epoch : Z)
| EvAddScalars (tag : string) (vs : list (string * pyfloat)) (epoch : Z)
| EvWriterClose.

(** A computation: from the objects as they are to a result, the objects
    as it leaves them, and the calls it made, in order. *)
Definition M (A : Type) : Type := world -> result A * world * list event.

Definition ret {A : Type} (a : A) : M A := fun w => (Returns a, w, []).
Definition raise {A : Type} (e : exn) : M A := fun w => (Raises e, w, []).
Definition bind {A B : Type} (c : M A) (k : A -> M B) : M B :=
  fun w =>
    match c w with
    | (Returns a, w1, t1) =>
        match k a w1 with
        | (r, w2, t2) => (r, w2, (t1 ++ t2)%list)
        end
    | (Raises e, w1, t1) => (Raises e, w1, t1)
    end.
Definition emit (ev : event) : M unit := fun w => (Returns tt, w, [ev]).
Definition get : M world := fun w => (Returns w, w, []).
Definition put (w : world) : M unit := fun _ => (Returns tt, w, []).

Notation "x <- c ;; k" := (bind c (fun x => k))
  (at level 61, c at next level, right associativity).
Notation "c ;; k" := (bind c (fun _ => k))
  (at level 61, right associativity).

Definition value {A W : Type} (o : result A * W * list event) : result A :=
  fst (fst o).
Definition final {A W : Type} (o : result A * W * list event) : W :=
  snd (fst o).
Definition calls {A W : Type} (o : result A * W * list event) : list event :=
  snd o.

(** [m.eval()] *)
Definition module_eval (m : net) : M unit :=
  emit (EvEval m) ;;
  w <- get ;;
  put match m with
      | Backbone =>
          {| backbone_sd := backbone_sd w; backbone_training := false;
             auxiliary_sd := auxiliary_sd w;
             auxiliary_training := auxiliary_training w;
             optimizer := optimizer w; scheduler := scheduler w;
             loader_passes := loader_passes w |}
      | Auxiliary =>
          {| backbone_sd := backbone_sd w;
             backbone_training := backbone_training w;
             auxiliary_sd := auxiliary_sd w; auxiliary_training := false;
             optimizer := optimizer w; scheduler := scheduler w;
             loader_passes := loader_passes w |}
      end.

(** [plfd_backbone(img)]: the module runs in the mode it is in.  Wrapped
    in [nn.DataParallel] or not, it is the module's own flag that its
    layers read. *)
Definition forward_backbone (grad : bool) (x : image) : M (feat * tensor) :=
  w <- get ;;
  emit (EvBackboneForward x (backbone_training w) grad) ;;
  if backbone_training w then
    let (out, sd) := backbone_train (backbone_sd w) x in
    put {| backbone_sd := sd; backbone_training := backbone_training w;
           auxiliary_sd := auxiliary_sd w;
           auxiliary_training := auxiliary_training w;
           optimizer := optimizer w; scheduler := scheduler w;
           loader_passes := loader_passes w |} ;;
    ret out
  else ret (backbone_eval (backbone_sd w) x).

(** [auxiliarynet(features)] *)
Definition forward_auxiliary (grad : bool) (x : feat) : M angle :=
  w <- get ;;
  emit (EvAuxiliaryForward x (auxiliary_training w) grad) ;;
  if auxiliary_training w then
    let (out, sd) := auxiliary_train (auxiliary_sd w) x in
    put {| backbone_sd := backbone_sd w;
           backbone_training := backbone_training w;
           auxiliary_sd := sd;
           auxiliary_training := auxiliary_training w;
           optimizer := optimizer w; scheduler := scheduler w;
           loader_passes := loader_passes w |} ;;
    ret out
  else ret (auxiliary_eval (auxiliary_sd w) x).

(** [optimizer.zero_grad(); weighted_loss.backward(); optimizer.step()],
    for the loss of batch [b] computed from the objects as they were in
    [w0], before the forward pass. *)
Definition gradient_update (w0 : world) (b : batch) (batchsize : Z) : M unit :=
  emit EvZeroGrad ;;
  emit EvBackward ;;
  let g := autograd (backbone_sd w0) (backbone_training w0)
             (auxiliary_sd w0) (auxiliary_training w0) b batchsize in
  emit EvOptimizerStep ;;
  w <- get ;;
  let '(o, (bsd, asd)) :=
    adam_step (optimizer w) g (backbone_sd w) (auxiliary_sd w) in
  put {| backbone_sd := bsd; backbone_training := backbone_training w;
         auxiliary_sd := asd; auxiliary_training := auxiliary_training w;
         optimizer := o; scheduler := scheduler w;
         loader_passes := loader_passes w |}.

(** *** [train] *)

(** The body of the [for] loop of [train], for one batch: forward passes,
    the criterion, one update; its value is [weighted_loss, loss]. *)
Definition train_step (args : Args) (b : batch) : M (pyfloat * pyfloat) :=
  w0 <- get ;;
  out <- forward_backbone true (img b) ;;
  ang <- forward_auxiliary true (fst out) ;;
  let wl := criterion (attribute_gt b) (landmark_gt b)
              (euler_angle_gt b) ang (snd out) (train_batchsize args) in
  gradient_update w0 b (train_batchsize args) ;;
  ret wl.

(** The [for] loop of [train]: [last] holds [weighted_loss, loss] once
    they are bound, [losses] is the meter ([losses.update(loss.item())]). *)
Fixpoint train_loop (args : Args) (bs : list batch)
    (last : option (pyfloat * pyfloat)) (losses : AverageMeter)
    : M (option (pyfloat * pyfloat) * AverageMeter) :=
  match bs with
  | [] => ret (last, losses)
  | b :: rest =>
      wl <- train_step args b ;;
      train_loop args rest (Some wl) (meter_update losses (snd wl))
  end.

(** [train_loader] is what one iteration over the loader yields; [args] is
    the global that the body reads [train_batchsize] from.  With GPUs the
    modules are wrapped in [nn.DataParallel] and moved to the device, which
    changes neither their tensors nor their modes. *)
Definition train (args : Args) (train_loader : list batch) (GPUs : list Z)
    (epoch : Z) : M (pyfloat * pyfloat) :=
  (if (0 <? Z.of_nat (List.length GPUs))
   then emit (EvSetCudaVisible (String.concat "," (map PyStr.str GPUs)))
   else ret tt) ;;
  r <- train_loop args train_loader None new_meter ;;
  match fst r with
  | Some wl => ret wl
  | None => raise (UnboundLocalError "weighted_loss")
  end.

(** *** [validate] *)

(** The loop of [validate], inside [with torch.no_grad()]. *)
Fixpoint validate_loop (bs : list batch) (losses : list pyfloat)
    : M (list pyfloat) :=
  match bs with
  | [] => ret losses
  | b :: rest =>
      out <- forward_backbone false (img b) ;;
      let loss :=
        torch_mean (torch_sum_axis1
                      (tensor_square (tensor_sub (landmark_gt b) (snd out)))) in
      validate_loop rest (losses ++ [loss])%list
  end.

Definition validate (wlfw_val_dataloader : list batch) (epoch : Z)
    : M pyfloat :=
  module_eval Backbone ;;
  module_eval Auxiliary ;;
  losses <- validate_loop wlfw_val_dataloader [] ;;
  ret (np_mean losses).

(** *** [main] *)

(** [torch.save(state, filename)] *)
Definition save_checkpoint (state : checkpoint state_dict)
    (filename : string) : M unit :=
  if can_write filename then emit (EvSaveCheckpoint filename state)
  else raise (FileNotFoundError filename).

Definition scheduler_step (metric : pyfloat) : M unit :=
  emit (EvSchedulerStep metric) ;;
  w <- get ;;
  let (s, o) := plateau_step (scheduler w) (optimizer w) metric in
  put {| backbone_sd := backbone_sd w;
         backbone_training := backbone_training w;
         auxiliary_sd := auxiliary_sd w;
         auxiliary_training := auxiliary_training w;
         optimizer := o; scheduler := s;
         loader_passes := loader_passes w |}.

(** Starting an iteration over the training loader. *)
Definition iterate_train_loader (batchsize : Z) : M (list batch) :=
  w <- get ;;
  put {| backbone_sd := backbone_sd w;
         backbone_training := backbone_training w;
         auxiliary_sd := auxiliary_sd w;
         auxiliary_training := auxiliary_training w;
         optimizer := optimizer w; scheduler := scheduler w;
         loader_passes := S (loader_passes w) |} ;;
  ret (train_dataloader batchsize (loader_passes w)).

(** The body of the epoch loop. *)
Definition epoch_body (args : Args) (GPUs : list Z)
    (train_bs val_bs : Z) (epoch : Z) : M unit :=
  emit (EvTrain epoch) ;;
  batches <- iterate_train_loader train_bs ;;
  tl <- train args batches GPUs epoch ;;
  let filename := PyStr.os_path_join (snapshot args)
                    ("checkpoint_epoch_" ++ PyStr.str epoch ++ ".pth.tar") in
  w <- get ;;
  save_checkpoint {| ck_epoch := epoch;
                     ck_plfd_backbone := backbone_sd w;
                     ck_auxiliarynet := auxiliary_sd w |} filename ;;
  emit (EvValidate epoch) ;;
  val_loss <- validate (val_dataloader val_bs) epoch ;;
  scheduler_step val_loss ;;
  emit (EvAddScalar "data/weighted_loss" (fst tl) epoch) ;;
  emit (EvAddScalars "data/loss"
          [("val loss", val_loss); ("train loss", snd tl)] epoch).

Fixpoint epoch_loop (args : Args) (GPUs : list Z) (train_bs val_bs : Z)
    (epochs : list Z) : M unit :=
  match epochs with
  | [] => ret tt
  | epoch :: rest =>
      epoch_body args GPUs train_bs val_bs epoch ;;
      epoch_loop args GPUs train_bs val_bs rest
  end.

(** Step 2 of [main], the modules: fresh, or with the tensors of the
    checkpoint named by [--resume]. *)
Definition load_modules (torch_load : disk) (args : Args)
    : result (state_dict * state_dict) :=
  if String.eqb (resume args) EmptyString
  then Returns (backbone_init, auxiliary_init)
  else match torch_load (resume args) with
       | Some ck => Returns (ck_plfd_backbone ck, ck_auxiliarynet ck)
       | None => Raises (FileNotFoundError (resume args))
       end.

Definition scale_batchsize (GPUs : list Z) (batchsize : Z) : Z :=
  if Z.of_nat (List.length GPUs) =? 0 then batchsize
  else batchsize * Z.of_nat (List.length GPUs).

(** [main], from the GPU list on.  Its first statements, which set up
    [logging] with a handler on [args.log_file] and log the arguments, are
    left out: the embedding starts where that set-up has succeeded, and a
    log file that cannot be opened is not among the failures below. *)
Definition main (torch_load : disk) (args : Args)
    : result unit * option world * list event :=
  match parse_gpus (devices_id args) with
  | None => (Raises ValueError, None, [])
  | Some GPUs =>
      match load_modules torch_load args with
      | Raises e => (Raises e, None, [])
      | Returns (bsd, asd) =>
          let w :=
            {| backbone_sd := bsd; backbone_training := true;
               auxiliary_sd := asd; auxiliary_training := true;
               optimizer := adam_init (base_lr args) (weight_decay args);
               scheduler := plateau_init (lr_patience args);
               loader_passes := 0 |} in
          match (epoch_loop args GPUs
                   (scale_batchsize GPUs (train_batchsize args))
                   (scale_batchsize GPUs (val_batchsize args))
                   (py_range (start_epoch args) (end_epoch args + 1)) ;;
                 emit EvWriterClose) w with
          | (r, w', t) => (r, Some w', t)
          end
      end
  end.

(** The script: [args = parse_args(); main(args)]. *)
Definition script (torch_load : disk) (cl : cmdline)
    : result unit * option world * list event :=
  match parse_args py_float cl with
  | Returns args => main torch_load args
  | Raises e => (Raises e, None, [])
  end.

(** *** Readings of a run *)

(** The calls that the body of the epoch loop makes itself. *)
Inductive step : Type :=
| StepTrain (epoch : Z)
| StepCheckpoint (epoch : Z)
| StepValidate (epoch : Z)
| StepScheduler
| StepLogWeighted (epoch : Z)
| StepLogLosses (epoch : Z)
| StepClose.

Definition step_of (ev : event) : option step :=
  match ev with
  | EvTrain e => Some (StepTrain e)
  | EvSaveCheckpoint _ ck => Some (StepCheckpoint (ck_epoch ck))
  | EvValidate e => Some (StepValidate e)
  | EvSchedulerStep _ => Some StepScheduler
  | EvAddScalar _ _ e => Some (StepLogWeighted e)
  | EvAddScalars _ _ e => Some (StepLogLosses e)
  | EvWriterClose => Some StepClose
  | _ => None
  end.

(** The calls of a run that [f] selects, in order, as [f] reads them. *)
Fixpoint collect {A : Type} (f : event -> option A) (t : list event)
    : list A :=
  match t with
  | [] => []
  | ev :: r =>
      match f ev with
      | Some a => a :: collect f r
      | None => collect f r
      end
  end.

Definition steps (t : list event) : list step := collect step_of t.

(** The steps of one complete iteration of the epoch loop. *)
Definition epoch_steps (e : Z) : list step :=
  [StepTrain e; StepCheckpoint e; StepValidate e; StepScheduler;
   StepLogWeighted e; StepLogLosses e].

Definition is_checkpoint_of (e : Z) (s : step) : bool :=
  match s with
  | StepCheckpoint e' => e' =? e
  | _ => false
  end.

(** The epochs for which [train] was called, in order. *)
Definition train_epoch (ev : event) : option Z :=
  match ev with
  | EvTrain e => Some e
  | _ => None
  end.
Definition epochs_begun (t : list event) : list Z := collect train_epoch t.

(** The epochs whose iteration ran to its last call, in order. *)
Definition logged_epoch (ev : event) : option Z :=
  match ev with
  | EvAddScalars _ _ e => Some e
  | _ => None
  end.
Definition epochs_completed (t : list event) : list Z := collect logged_epoch t.

(** The mode in which a forward pass ran: [true] for training. *)
Definition forward_mode (ev : event) : option bool :=
  match ev with
  | EvBackboneForward _ training _ => Some training
  | EvAuxiliaryForward _ training _ => Some training
  | _ => None
  end.

Definition ran_in_eval_mode (ev : event) : Prop :=
  match forward_mode ev with
  | Some training => training = false
  | None => True
  end.

Definition is_optimizer_step (ev : event) : bool :=
  match ev with
  | EvOptimizerStep => true
  | _ => false
  end.

(** The number of [optimizer.step()] calls. *)
Definition updates (t : list event) : nat :=
  List.length (filter is_optimizer_step t).

(** The losses that the training steps of a pass yield, batch by batch,
    each step starting from the objects as the step before left them. *)
Fixpoint pass_losses (args : Args) (bs : list batch) (w : world)
    : list (pyfloat * pyfloat) :=
  match bs with
  | [] => []
  | b :: rest =>
      match train_step args b w with
      | (Returns wl, w', _) => wl :: pass_losses args rest w'
      | (Raises _, _, _) => []
      end
  end.

(** The checkpoint files written: name and recorded epoch. *)
Definition written (ev : event) : option (string * Z) :=
  match ev with
  | EvSaveCheckpoint f ck => Some (f, ck_epoch ck)
  | _ => None
  end.
Definition checkpoints_written (t : list event) : list (string * Z) :=
  collect written t.


(** The training passes of a run: the [train] calls with their epoch, and
    under each the forward passes made with gradient tracking (those of the
    training steps), with the mode the module was in ([true]: training). *)
Definition training_reading (ev : event) : option (Z + net * bool) :=
  match ev with
  | EvTrain e => Some (inl e)
  | EvBackboneForward _ training true => Some (inr (Backbone, training))
  | EvAuxiliaryForward _ training true => Some (inr (Auxiliary, training))
  | _ => None
  end.
Definition training_passes (t : list event) : list (Z + net * bool) :=
  collect training_reading t.

(** The objects with both modules switched to evaluation mode. *)
Definition in_eval_mode (w : world) : world :=
  {| backbone_sd := backbone_sd w; backbone_training := false;
     auxiliary_sd := auxiliary_sd w; auxiliary_training := false;
     optimizer := optimizer w; scheduler := scheduler w;
     loader_passes := loader_passes w |}.

(** The landmark error of each batch of a validation set, for a backbone
    with tensors [sd] in evaluation mode. *)
Definition batch_errors (sd : state_dict) (bs : list batch) : list pyfloat :=
  map (fun b => batch_landmark_error (landmark_gt b)
                  (snd (backbone_eval sd (img b)))) bs.

(** What [validate] calls on a validation set: both modules to evaluation
    mode, then one forward pass of the backbone per batch, in order, in
    evaluation mode and without gradient tracking. *)
Definition validation_calls (bs : list batch) : list event :=
  (EvEval Backbone :: EvEval Auxiliary ::
   map (fun b => EvBackboneForward (img b) false false) bs).

(** The objects once an iteration over the training loader has begun. *)
Definition pass_started (w : world) : world :=
  {| backbone_sd := backbone_sd w; backbone_training := backbone_training w;
     auxiliary_sd := auxiliary_sd w;
     auxiliary_training := auxiliary_training w;
     optimizer := optimizer w; scheduler := scheduler w;
     loader_passes := S (loader_passes w) |}.

(** The objects once the scheduler has seen [metric]. *)
Definition after_scheduler (metric : pyfloat) (w : world) : world :=
  {| backbone_sd := backbone_sd w; backbone_training := backbone_training w;
     auxiliary_sd := auxiliary_sd w;
     auxiliary_training := auxiliary_training w;
     optimizer := snd (plateau_step (scheduler w) (optimizer w) metric);
     scheduler := fst (plateau_step (scheduler w) (optimizer w) metric);
     loader_passes := loader_passes w |}.

(** A call made by a training step whose modules are in the modes [bt]
    (backbone) and [at'] (auxiliary net): forward passes run in these
    modes, with gradient tracking; nothing is a call of the epoch loop. *)
Definition training_call (bt at' : bool) (ev : event) : Prop :=
  match ev with
  | EvBackboneForward _ training grad => training = bt /\ grad = true
  | EvAuxiliaryForward _ training grad => training = at' /\ grad = true
  | EvZeroGrad | EvBackward | EvOptimizerStep | EvSetCudaVisible _ => True
  | _ => False
  end.

(** [weighted_loss, loss] as the loop leaves them: those of the last step. *)
Definition last_bound (last : option (pyfloat * pyfloat))
    (l : list (pyfloat * pyfloat)) : option (pyfloat * pyfloat) :=
  fold_left (fun _ x => Some x) l last.

(** *** A training step, from what the framework computes

    The next definitions say what a step on a batch is in terms of the
    framework's functions alone; [train_step] and [train] are compared with
    them. *)

(** A forward pass of the backbone on [x] from the objects [w]: what it
    returns, and its tensors after the pass; in evaluation mode the
    tensors stay. *)
Definition backbone_pass (w : world) (x : image)
    : (feat * tensor) * state_dict :=
  if backbone_training w then backbone_train (backbone_sd w) x
  else (backbone_eval (backbone_sd w) x, backbone_sd w).

(** The same for the auxiliary network, on features [x]. *)
Definition auxiliary_pass (w : world) (x : feat) : angle * state_dict :=
  if auxiliary_training w then auxiliary_train (auxiliary_sd w) x
  else (auxiliary_eval (auxiliary_sd w) x, auxiliary_sd w).

(** The weighted and the plain loss of batch [b] from the objects [w]: the
    criterion, on the ground truth of the batch, the angle that the
    auxiliary network computes from the features that the backbone
    computes from the images of the batch, the landmarks that the backbone
    computes, and the batch size of the command line. *)
Definition step_losses (args : Args) (b : batch) (w : world)
    : pyfloat * pyfloat :=
  let out := fst (backbone_pass w (img b)) in
  criterion (attribute_gt b) (landmark_gt b) (euler_angle_gt b)
    (fst (auxiliary_pass w (fst out))) (snd out) (train_batchsize args).

(** The objects after one gradient-descent update on batch [b] from the
    objects [w]: Adam, from its state in [w] and the gradients of the
    loss of [b] at [w], updates the tensors that the two forward passes
    left; modes, scheduler and loader are untouched. *)
Definition after_step (args : Args) (b : batch) (w : world) : world :=
  let out := fst (backbone_pass w (img b)) in
  let updated :=
    adam_step (optimizer w)
      (autograd (backbone_sd w) (backbone_training w)
         (auxiliary_sd w) (auxiliary_training w) b (train_batchsize args))
      (snd (backbone_pass w (img b)))
      (snd (auxiliary_pass w (fst out))) in
  {| backbone_sd := fst (snd updated);
     backbone_training := backbone_training w;
     auxiliary_sd := snd (snd updated);
     auxiliary_training := auxiliary_training w;
     optimizer := fst updated; scheduler := scheduler w;
     loader_passes := loader_passes w |}.

(** The losses of the batches of a pass, each computed from the objects
    as the update on the batch before left them. *)
Fixpoint losses_of_pass (args : Args) (bs : list batch) (w : world)
    : list (pyfloat * pyfloat) :=
  match bs with
  | [] => []
  | b :: rest =>
      step_losses args b w :: losses_of_pass args rest (after_step args b w)
  end.

(** The objects after one update per batch of the pass, in order. *)
Definition after_pass (args : Args) (bs : list batch) (w : world) : world :=
  fold_left (fun w' b => after_step args b w') bs w.

End Script.

(** ** A small instance, to run the script on *)

Definition toy_batch (n : nat) (gt : tensor) : Batch nat unit unit :=
  {| img := n; landmark_gt := gt; attribute_gt := tt; euler_angle_gt := tt |}.

(** One scalar stands for the tensors of a module; a forward pass in
    training mode adds 100 to it (its buffers move), an update subtracts
    the gradient.  The machine has no directory named "missing". *)
Definition toy (loader : nat -> list (Batch nat unit unit)) : Torch :=
  {| image := nat; attr := unit; euler := unit; feat := nat; angle := Z;
     state_dict := Z; gradients := Z; opt_state := nat; sched_state := nat;
     backbone_train := fun sd x => ((x, [[inject_Z sd; 0%Q]]), sd + 100);
     backbone_eval := fun sd x => (x, [[inject_Z sd; 0%Q]]);
     auxiliary_train := fun sd _ => (sd, sd + 100);
     auxiliary_eval := fun sd _ => sd;
     criterion := fun _ gt _ _ lm _ => (Fin 2, batch_landmark_error gt lm);
     autograd := fun _ _ _ _ _ _ => 1;
     adam_init := fun _ _ => 0%nat;
     adam_step := fun o g b a => (S o, (b - g, a - g));
     plateau_init := fun _ => 0%nat;
     plateau_step := fun s o _ => (S s, o);
     backbone_init := 10;
     auxiliary_init := 20;
     train_dataloader := fun _ k => loader k;
     val_dataloader :=
       fun _ => [toy_batch 7 [[1; 1]%Q]; toy_batch 8 [[2; 0]%Q]];
     can_write := fun f => negb (String.prefix "missing/" f);
     py_float := fun _ => None |}.

Definition one_batch_loader (k : nat) : list (Batch nat unit unit) :=
  [toy_batch k [[3; 4]%Q]].

Definition empty_disk {T : Torch} : disk := fun _ => None.

Definition no_batch_loader (k : nat) : list (Batch nat unit unit) := [].

(** The objects of the small instance as [main] builds them. *)
Definition toy_world : @world (toy one_batch_loader) :=
  @Build_world (toy one_batch_loader) 10 true 20 true 0%nat 0%nat 0.

(** The same tensors, after some training steps of the optimizer. *)
Definition toy_world_later : @world (toy one_batch_loader) :=
  @Build_world (toy one_batch_loader) 10 false 35 true 4%nat 1%nat 3.

Definition toy_val_batches : list (Batch nat unit unit) :=
  [toy_batch 7 [[1; 1]%Q]; toy_batch 8 [[2; 0]%Q]].

(** The landmark errors of the two validation batches, for a backbone
    that predicts [[10; 0]]: 9 * 9 + 1 * 1, and 8 * 8 + 0 * 0. *)
Definition toy_val_errors : list Q :=
  [((1 - 10) * (1 - 10) + ((1 - 0) * (1 - 0) + 0)
    + 0) / inject_Z (Z.of_nat 1);
   ((2 - 10) * (2 - 10) + ((0 - 0) * (0 - 0) + 0)
    + 0) / inject_Z (Z.of_nat 1)]%Q.


(** [--start_epoch 1 --end_epoch 2 --snapshot snap], the rest by default. *)
Definition two_epochs : Args :=
  {| workers := 16; devices_id := "0"; test_initial := false;
     base_lr := PyFloat (Fin (1 # 10000)); weight_decay := Fin (1 # 1000000);
     lr_patience := 40; start_epoch := 1; end_epoch := 2;
     snapshot := "snap"; log_file := "./checkpoint/train.logs";
     tensorboard := "./checkpoint/tensorboard"; resume := EmptyString;
     dataroot := "./data/train_data/list.txt";
     val_dataroot := "./data/test_data/list.txt";
     train_batchsize := 128; val_batchsize := 8 |}.

(** [--devices_id 0,] (a trailing comma), otherwise as [two_epochs]. *)
Definition bad_gpus : Args :=
  {| workers := 16; devices_id := "0,"; test_initial := false;
     base_lr := PyFloat (Fin (1 # 10000)); weight_decay := Fin (1 # 1000000);
     lr_patience := 40; start_epoch := 1; end_epoch := 2;
     snapshot := "snap"; log_file := "./checkpoint/train.logs";
     tensorboard := "./checkpoint/tensorboard"; resume := EmptyString;
     dataroot := "./data/train_data/list.txt";
     val_dataroot := "./data/test_data/list.txt";
     train_batchsize := 128; val_batchsize := 8 |}.

(** [--snapshot missing], otherwise as [two_epochs]. *)
Definition no_snapshot_dir : Args :=
  {| workers := 16; devices_id := "0"; test_initial := false;
     base_lr := PyFloat (Fin (1 # 10000)); weight_decay := Fin (1 # 1000000);
     lr_patience := 40; start_epoch := 1; end_epoch := 2;
     snapshot := "missing"; log_file := "./checkpoint/train.logs";
     tensorboard := "./checkpoint/tensorboard"; resume := EmptyString;
     dataroot := "./data/train_data/list.txt";
     val_dataroot := "./data/test_data/list.txt";
     train_batchsize := 128; val_batchsize := 8 |}.


(** ** Further readings of strings and runs *)

(** A string with each of its letters [a]-[z] replaced by the capital
    letter; every other byte is left as it is. *)
Definition capital_char (c : ascii) : ascii :=
  let n := nat_of_ascii c in
  if (97 <=? n)%nat && (n <=? 122)%nat then ascii_of_nat (n - 32) else c.

Fixpoint capitals (s : string) : string :=
  match s with
  | EmptyString => EmptyString
  | String c r => String (capital_char c) (capitals r)
  end.

(** Two characters that are the same, or the same letter in its two cases. *)
Definition same_letter (c d : ascii) : Prop :=
  c = d \/ d = capital_char c \/ c = capital_char d.

(** Two strings that differ at most in the case of their letters. *)
Fixpoint same_up_to_case (s t : string) : Prop :=
  match s, t with
  | EmptyString, EmptyString => True
  | String c s', String d t' => same_letter c d /\ same_up_to_case s' t'
  | _, _ => False
  end.

(** The number of commas of a string. *)
Fixpoint commas (s : string) : nat :=
  match s with
  | EmptyString => 0%nat
  | String c r => if Ascii.eqb c "," then S (commas r) else commas r
  end.

(** The value of the decimal numeral [d] read after digits that amount to
    [acc]. *)
Fixpoint numeral_value (acc : Z) (d : Decimal.uint) : Z :=
  match d with
  | Decimal.Nil => acc
  | Decimal.D0 l => numeral_value (10 * acc + 0) l
  | Decimal.D1 l => numeral_value (10 * acc + 1) l
  | Decimal.D2 l => numeral_value (10 * acc + 2) l
  | Decimal.D3 l => numeral_value (10 * acc + 3) l
  | Decimal.D4 l => numeral_value (10 * acc + 4) l
  | Decimal.D5 l => numeral_value (10 * acc + 5) l
  | Decimal.D6 l => numeral_value (10 * acc + 6) l
  | Decimal.D7 l => numeral_value (10 * acc + 7) l
  | Decimal.D8 l => numeral_value (10 * acc + 8) l
  | Decimal.D9 l => numeral_value (10 * acc + 9) l
  end.

Section ScriptReadings.

Context {T : Torch}.

(** The checkpoints saved by a run, in order, with their contents. *)
Definition saved (ev : event) : option (checkpoint state_dict) :=
  match ev with
  | EvSaveCheckpoint _ ck => Some ck
  | _ => None
  end.
Definition checkpoints_saved (t : list event) : list (checkpoint state_dict) :=
  collect saved t.

(** How a training pass of epoch [e] over [n] batches reads when both
    modules are in the mode [mode]. *)
Definition pass_reading (e : Z) (mode : bool) (n : nat)
    : list (Z + net * bool) :=
  inl e :: List.concat (repeat [inr (Backbone, mode); inr (Auxiliary, mode)] n).

(** How the training passes of the epochs [epochs] read when the first of
    them, pass number [k] over the training loader of batch size [tb], runs
    with both modules in the mode [mode] and all later ones in evaluation
    mode. *)
Fixpoint run_reading (tb : Z) (k : nat) (mode : bool) (epochs : list Z)
    : list (Z + net * bool) :=
  match epochs with
  | [] => []
  | e :: rest =>
      (pass_reading e mode (List.length (train_dataloader tb k))
       ++ run_reading tb (S k) false rest)%list
  end.

(** The number of batches of the [n] passes over the training loader that
    start with pass number [k]. *)
Fixpoint batches_of_passes (tb : Z) (k n : nat) : nat :=
  match n with
  | O => 0%nat
  | S n' => (List.length (train_dataloader tb k)
             + batches_of_passes tb (S k) n')%nat
  end.

(** The validation losses that a run logs, each with its epoch. *)
Definition logged_val_loss (ev : event) : option (Z * pyfloat) :=
  match ev with
  | EvAddScalars _ ((_, v) :: _) e => Some (e, v)
  | _ => None
  end.
Definition val_losses_logged (t : list event) : list (Z * pyfloat) :=
  collect logged_val_loss t.

(** The epoch of a checkpoint and the landmark error, over the validation
    set of batch size [vb], of the backbone tensors that it holds. *)
Definition checkpoint_val_loss (vb : Z) (ck : checkpoint state_dict)
    : Z * pyfloat :=
  (ck_epoch ck,
   np_mean (batch_errors (ck_plfd_backbone ck) (val_dataloader vb))).

(** The objects as [main] builds them around the tensors [bsd] and [asd]:
    both modules in training mode, a new optimizer and scheduler. *)
Definition fresh_world (args : Args) (bsd asd : state_dict) : world :=
  {| backbone_sd := bsd; backbone_training := true;
     auxiliary_sd := asd; auxiliary_training := true;
     optimizer := adam_init (base_lr args) (weight_decay args);
     scheduler := plateau_init (lr_patience args);
     loader_passes := 0 |}.

End ScriptReadings.

(** What [--start_epoch 3 --end_epoch 5 --start_epoch 2] parses to. *)
Definition from_2_to_5 : Args :=
  {| workers := 16; devices_id := "0"; test_initial := false;
     base_lr := PyFloat (Fin (1 # 10000)); weight_decay := Fin (1 # 1000000);
     lr_patience := 40; start_epoch := 2; end_epoch := 5;
     snapshot := "./checkpoint/snapshot/";
     log_file := "./checkpoint/train.logs";
     tensorboard := "./checkpoint/tensorboard"; resume := EmptyString;
     dataroot := "./data/train_data/list.txt";
     val_dataroot := "./data/test_data/list.txt";
     train_batchsize := 128; val_batchsize := 8 |}.

(** A training loader whose pass number [k] yields [k + 1] batches. *)
Definition growing_loader (k : nat) : list (Batch nat unit unit) :=
  map (fun i => toy_batch i [[3; 4]%Q]) (seq 0 (S k)).

(** * Properties *)

(** ** Strings and numbers *)

Lemma py_in_In (x : string) (t : list string) :
  PyStr.py_in x t = true <-> In x t.
Proof.
  unfold PyStr.py_in. rewrite existsb_exists. split.
  - intros [y [Hy Heq]]. apply String.eqb_eq in Heq. now subst.
  - intros H. exists x. split; [assumption | apply String.eqb_refl].
Qed.

Lemma words_disjoint (x : string) : In x true_words -> In x false_words -> False.
Proof.
  unfold true_words, false_words. simpl.
  intros H1 H2.
  repeat match goal with
         | H : _ \/ _ |- _ => destruct H
         | H : False |- _ => destruct H
         end; subst; discriminate.
Qed.

Lemma tensor_pipeline (gt pred : tensor) :
  torch_mean (torch_sum_axis1 (tensor_square (tensor_sub gt pred)))
  = batch_landmark_error gt pred.
Proof.
  unfold torch_mean, batch_landmark_error. f_equal.
  unfold torch_sum_axis1, tensor_square, tensor_sub.
  revert pred. induction gt as [|g gt IH]; intros [|p pred]; simpl; try reflexivity.
  rewrite IH. f_equal.
  unfold squared_error_sum. f_equal.
  clear. revert p. induction g as [|x g IH]; intros [|y p]; simpl; try reflexivity.
  now rewrite IH.
Qed.

Lemma py_range_length (a b : Z) : List.length (py_range a b) = Z.to_nat (b - a).
Proof. unfold py_range. now rewrite length_map, length_seq. Qed.

Lemma py_range_NoDup (a b : Z) : NoDup (py_range a b).
Proof.
  unfold py_range. apply Injective_map_NoDup.
  - intros i j H. lia.
  - apply seq_NoDup.
Qed.


Lemma py_range_empty (a b : Z) : b <= a -> py_range a b = [].
Proof.
  intros H. unfold py_range. replace (Z.to_nat (b - a)) with 0%nat by lia.
  reflexivity.
Qed.

Lemma all_finite_Fin (qs : list Q) : all_finite (map Fin qs) = Some qs.
Proof. induction qs as [|q qs IH]; simpl; [reflexivity|]. now rewrite IH. Qed.

(** C3: [str2bool v] returns [True] exactly when [v], lower-cased, is one
    of "yes", "true", "t", "y", "1"; it returns [False] exactly when [v],
    lower-cased, is one of "no", "false", "f", "n", "0"; and it raises the
    argument-type error exactly for every other string. *)
Theorem str2bool_spec (v : string) :
  (str2bool v = Returns true <-> In (PyStr.lower v) true_words)
  /\ (str2bool v = Returns false <-> In (PyStr.lower v) false_words)
  /\ ((exists msg, str2bool v = Raises (ArgumentTypeError msg))
      <-> ~ In (PyStr.lower v) true_words /\ ~ In (PyStr.lower v) false_words).
Proof.
  unfold str2bool.
  pose proof (py_in_In (PyStr.lower v) true_words) as Ht.
  pose proof (py_in_In (PyStr.lower v) false_words) as Hf.
  pose proof (words_disjoint (PyStr.lower v)) as Hd.
  destruct (PyStr.py_in (PyStr.lower v) true_words);
    destruct (PyStr.py_in (PyStr.lower v) false_words);
    repeat split; intros;
    repeat match goal with
           | H : exists _, _ |- _ => destruct H
           | H : _ /\ _ |- _ => destruct H
           end;
    try discriminate; try (eexists; reflexivity);
    intuition congruence.
Qed.

(** ** [int] and the command line *)

Lemma all_space_point (s : string) :
  PyStr.has_point s = true -> PyStr.all_space s = false.
Proof.
  induction s as [|c s IH]; simpl; [discriminate|].
  destruct (Ascii.eqb_spec c "."); simpl; intros H.
  - subst c. reflexivity.
  - rewrite (IH H). apply andb_false_r.
Qed.

Lemma digits_point (s : string) :
  forall acc prev, PyStr.has_point s = true -> PyStr.digits acc prev s = None.
Proof.
  induction s as [|c s IH]; intros acc prev; simpl; [discriminate|].
  destruct (Ascii.eqb_spec c "."); simpl; intros H.
  - subst c. destruct prev; reflexivity.
  - destruct (PyStr.digit_val c); [now apply IH|].
    destruct prev; try reflexivity.
    destruct (Ascii.eqb c "_"); [now apply IH|].
    rewrite (all_space_point s H), andb_false_r. reflexivity.
Qed.

Lemma lstrip_point (s : string) :
  PyStr.has_point s = true -> PyStr.has_point (PyStr.lstrip s) = true.
Proof.
  induction s as [|c s IH]; simpl; [discriminate|].
  destruct (Ascii.eqb_spec c "."); simpl; intros H.
  - subst c. reflexivity.
  - destruct (PyStr.is_space c); [now apply IH|].
    simpl. destruct (Ascii.eqb_spec c "."); [contradiction | exact H].
Qed.

(** [int(s)] raises on every string with a decimal point. *)
Lemma int_point (s : string) : PyStr.has_point s = true -> PyStr.int s = None.
Proof.
  intros H. apply lstrip_point in H. unfold PyStr.int.
  destruct (PyStr.lstrip s) as [|c r]; [discriminate|].
  assert (Hall : PyStr.digits 0 PyStr.SeenNothing (String c r) = None)
    by now apply digits_point.
  assert (Hr : c <> "."%char -> PyStr.digits 0 PyStr.SeenNothing r = None).
  { intros Hc. apply digits_point. simpl in H.
    destruct (Ascii.eqb_spec c "."); [contradiction | exact H]. }
  destruct c as [[] [] [] [] [] [] [] []]; try exact Hall;
    rewrite Hr by discriminate; reflexivity.
Qed.

Lemma convert_all_raises {A : Type} (type : string -> option A)
    (vs : list string) :
  forall (cur : A) (e : exn),
    convert_all type vs cur = Raises e -> e = SystemExit 2.
Proof.
  induction vs as [|v vs IH]; intros cur e; simpl; [discriminate|].
  destruct (type v); [apply IH | congruence].
Qed.

Lemma convert_all_fails {A : Type} (type : string -> option A)
    (vs : list string) (s : string) :
  In s vs -> type s = None ->
  forall cur, convert_all type vs cur = Raises (SystemExit 2).
Proof.
  intros Hin Hs. induction vs as [|v vs IH]; intros cur; [contradiction|].
  simpl. destruct (type v) as [x|] eqn:Hv; [|reflexivity].
  destruct Hin as [-> | Hin]; [congruence | now apply IH].
Qed.

Lemma convert_all_base_lr (vs : list string) :
  forall cur x,
    convert_all type_base_lr vs cur = Returns x ->
    match vs with
    | [] => x = cur
    | _ :: _ => exists z, x = PyInt z
    end.
Proof.
  induction vs as [|v vs IH]; intros cur x; simpl; [congruence|].
  unfold type_base_lr at 1. destruct (PyStr.int v) as [z|]; simpl; [|discriminate].
  intros H. apply IH in H. destruct vs; [subst; eauto | exact H].
Qed.

Lemma occurrences_In (cl : cmdline) (dest s : string) :
  In (dest, s) cl -> In s (occurrences cl dest).
Proof.
  intros H. unfold occurrences. apply in_map_iff. exists (dest, s).
  split; [reflexivity|]. apply filter_In. split; [exact H|].
  apply String.eqb_refl.
Qed.

Lemma parse_args_base_lr_fails (py_float : string -> option pyfloat)
    (cl : cmdline) :
  add_argument cl "base_lr" (PyFloat (Fin (1 # 10000))) type_base_lr
  = Raises (SystemExit 2) ->
  parse_args py_float cl = Raises (SystemExit 2).
Proof.
  intros H. unfold parse_args, rbind.
  destruct (forallb _ cl); [|reflexivity].
  destruct (add_argument cl "workers" 16 type_int) eqn:H1;
    [|apply convert_all_raises in H1; now subst].
  destruct (add_argument cl "devices_id" "0" type_str) eqn:H2;
    [|apply convert_all_raises in H2; now subst].
  destruct (add_argument cl "test_initial" false type_str2bool) eqn:H3;
    [|apply convert_all_raises in H3; now subst].
  now rewrite H.
Qed.

Lemma parse_args_base_lr (py_float : string -> option pyfloat) (cl : cmdline)
    (args : Args) :
  parse_args py_float cl = Returns args ->
  add_argument cl "base_lr" (PyFloat (Fin (1 # 10000))) type_base_lr
  = Returns (base_lr args).
Proof.
  unfold parse_args, rbind.
  destruct (forallb _ cl); [|discriminate].
  repeat match goal with
         | |- context [match add_argument ?c ?d ?v ?t with _ => _ end] =>
             destruct (add_argument c d v t); [|discriminate]
         end.
  intros H. injection H as <-. reflexivity.
Qed.

Section Properties.

Context {T : Torch}.

(** ** [validate] *)

Lemma validate_loop_run (bs : list batch) (acc : list pyfloat) (w : world) :
  backbone_training w = false ->
  validate_loop bs acc w
  = (Returns (acc ++ batch_errors (backbone_sd w) bs)%list, w,
     map (fun b => EvBackboneForward (img b) false false) bs).
Proof.
  intros Hmode. revert acc.
  induction bs as [|b bs IH]; intros acc; simpl.
  - unfold ret. now rewrite app_nil_r.
  - unfold bind at 1. unfold forward_backbone, bind, get, emit, ret.
    rewrite Hmode. simpl. rewrite IH. simpl.
    rewrite tensor_pipeline, <- app_assoc. reflexivity.
Qed.

Lemma validate_run (bs : list batch) (epoch : Z) (w : world) :
  validate bs epoch w
  = (Returns (np_mean (batch_errors (backbone_sd w) bs)), in_eval_mode w,
     validation_calls bs).
Proof.
  unfold validate, module_eval, bind, get, put, emit, ret. simpl.
  rewrite validate_loop_run by reflexivity. simpl.
  rewrite app_nil_r. reflexivity.
Qed.

(** C2: for every validation set, [validate] makes one forward pass of the
    backbone per batch, in the order of the set and each batch once, with
    gradient tracking disabled; the error of a batch is the mean over its
    samples of the sum over the coordinates of the squared landmark error;
    and the value returned is the arithmetic mean of these per-batch errors
    over all batches (for per-batch errors [errs], their sum divided by
    their number). *)
Theorem validate_spec (bs : list batch) (epoch : Z) (w : world) :
  value (validate bs epoch w)
  = Returns (np_mean (batch_errors (backbone_sd w) bs))
  /\ calls (validate bs epoch w) = validation_calls bs
  /\ (forall errs : list Q,
        batch_errors (backbone_sd w) bs = map Fin errs -> errs <> [] ->
        value (validate bs epoch w)
        = Returns (Fin (Qsum errs / inject_Z (Z.of_nat (List.length errs))))).
Proof.
  rewrite validate_run. unfold value, calls. cbn [fst snd].
  repeat split.
  intros errs Herrs Hne. rewrite Herrs. unfold np_mean.
  rewrite all_finite_Fin. destruct errs; [congruence | reflexivity].
Qed.

(** C7: a call of [validate] leaves the tensors of the backbone and of the
    auxiliary network, and the optimizer, as they were; so a second call
    on the same validation set returns what the first returned, and so
    does any call made with the same backbone tensors. *)
Theorem validate_frame (bs : list batch) (epoch epoch' : Z) (w : world) :
  backbone_sd (final (validate bs epoch w)) = backbone_sd w
  /\ auxiliary_sd (final (validate bs epoch w)) = auxiliary_sd w
  /\ optimizer (final (validate bs epoch w)) = optimizer w
  /\ value (validate bs epoch' (final (validate bs epoch w)))
     = value (validate bs epoch w)
  /\ (forall w2 : world,
        backbone_sd w2 = backbone_sd w ->
        value (validate bs epoch' w2) = value (validate bs epoch w)).
Proof.
  rewrite !validate_run. unfold value, final. cbn [fst snd].
  repeat split.
  intros w2 Hsd. rewrite validate_run. cbn [fst snd]. now rewrite Hsd.
Qed.

(** ** [train] *)

Lemma train_step_run (args : Args) (b : batch) (w : world) :
  exists out ang w',
    train_step args b w
    = (Returns (criterion (attribute_gt b) (landmark_gt b) (euler_angle_gt b)
                  ang (snd out) (train_batchsize args)), w',
       [EvBackboneForward (img b) (backbone_training w) true;
        EvAuxiliaryForward (fst out) (auxiliary_training w) true;
        EvZeroGrad; EvBackward; EvOptimizerStep])
    /\ backbone_training w' = backbone_training w
    /\ auxiliary_training w' = auxiliary_training w
    /\ scheduler w' = scheduler w
    /\ loader_passes w' = loader_passes w.
Proof.
  unfold train_step, forward_backbone, forward_auxiliary, gradient_update,
    bind, get, put, emit, ret.
  destruct w as [bsd bt asd at' o sc n]; simpl.
  destruct bt; simpl.
  - destruct (backbone_train bsd (img b)) as [out bsd'] eqn:Hb; simpl.
    destruct at'; simpl.
    + destruct (auxiliary_train asd (fst out)) as [ang asd'] eqn:Ha; simpl.
      destruct (adam_step o _ bsd' asd') as [o' [b' a']]; simpl.
      exists out, ang. eexists. repeat split.
    + destruct (adam_step o _ bsd' asd) as [o' [b' a']]; simpl.
      exists out, (auxiliary_eval asd (fst out)). eexists. repeat split.
  - destruct at'; simpl.
    + destruct (auxiliary_train asd (fst (backbone_eval bsd (img b))))
        as [ang asd'] eqn:Ha; simpl.
      destruct (adam_step o _ bsd asd') as [o' [b' a']]; simpl.
      exists (backbone_eval bsd (img b)), ang. eexists. repeat split.
    + destruct (adam_step o _ bsd asd) as [o' [b' a']]; simpl.
      exists (backbone_eval bsd (img b)),
        (auxiliary_eval asd (fst (backbone_eval bsd (img b)))).
      eexists. repeat split.
Qed.

Lemma collect_app {A : Type} (f : event -> option A) (t1 t2 : list event) :
  collect f (t1 ++ t2) = (collect f t1 ++ collect f t2)%list.
Proof.
  induction t1 as [|ev t1 IH]; simpl; [reflexivity|].
  destruct (f ev); simpl; now rewrite IH.
Qed.

Lemma collect_none {A : Type} (f : event -> option A) (t : list event) :
  Forall (fun ev => f ev = None) t -> collect f t = [].
Proof.
  induction 1 as [|ev t Hev _ IH]; simpl; [reflexivity|]. now rewrite Hev.
Qed.

(** A training step makes no call of the epoch loop. *)
Lemma training_call_inner (bt at' : bool) (ev : event) :
  training_call bt at' ev ->
  step_of ev = None /\ train_epoch ev = None /\ logged_epoch ev = None
  /\ written ev = None.
Proof. destruct ev; simpl; intros H; try contradiction; auto. Qed.

Lemma training_calls_inner {A : Type} (f : event -> option A) (bt at' : bool)
    (t : list event) :
  (forall ev, training_call bt at' ev -> f ev = None) ->
  Forall (training_call bt at') t -> collect f t = [].
Proof.
  intros Hf Ht. apply collect_none.
  eapply Forall_impl; [|exact Ht]. exact Hf.
Qed.

Lemma validation_calls_inner {A : Type} (f : event -> option A)
    (bs : list batch) :
  f (EvEval Backbone) = None -> f (EvEval Auxiliary) = None ->
  (forall x tr g, f (EvBackboneForward x tr g) = None) ->
  collect f (validation_calls bs) = [].
Proof.
  intros H1 H2 H3. unfold validation_calls. simpl. rewrite H1, H2.
  induction bs as [|b bs IH]; simpl; [reflexivity|]. now rewrite H3.
Qed.

Lemma updates_app (t1 t2 : list event) :
  updates (t1 ++ t2) = (updates t1 + updates t2)%nat.
Proof. unfold updates. now rewrite filter_app, length_app. Qed.

Lemma train_loop_run (args : Args) (bs : list batch) :
  forall (last : option (pyfloat * pyfloat)) (m : AverageMeter) (w : world),
  exists w' t,
    train_loop args bs last m w
    = (Returns (last_bound last (pass_losses args bs w),
                {| passed := (passed m ++ map snd (pass_losses args bs w))%list |}),
       w', t)
    /\ List.length (pass_losses args bs w) = List.length bs
    /\ updates t = List.length bs
    /\ Forall (training_call (backbone_training w) (auxiliary_training w)) t
    /\ backbone_training w' = backbone_training w
    /\ auxiliary_training w' = auxiliary_training w
    /\ scheduler w' = scheduler w
    /\ loader_passes w' = loader_passes w.
Proof.
  induction bs as [|b bs IH]; intros last m w; simpl.
  - exists w, []. unfold ret, last_bound. simpl. rewrite app_nil_r.
    destruct m. repeat split. constructor.
  - destruct (train_step_run args b w)
      as (out & ang & w1 & Hstep & Hbt & Hat & Hsc & Hlp).
    unfold bind at 1. rewrite Hstep.
    set (wl := criterion _ _ _ _ _ _) in *.
    destruct (IH (Some wl) (meter_update m (snd wl)) w1)
      as (w2 & t2 & Hloop & Hlen & Hupd & Hcalls & Hbt2 & Hat2 & Hsc2 & Hlp2).
    rewrite Hloop. exists w2. eexists. split.
    + simpl. rewrite <- app_assoc. reflexivity.
    + simpl. rewrite Hlen.
      change (?a :: ?b :: ?c :: ?d :: ?e :: t2)
        with ([a; b; c; d; e] ++ t2)%list.
      rewrite updates_app, Hupd. rewrite Hbt, Hat in Hcalls.
      repeat split; try congruence.
      repeat (constructor; simpl; auto).
Qed.

Lemma last_bound_last (l : list (pyfloat * pyfloat)) :
  forall init d, l <> [] -> last_bound init l = Some (List.last l d).
Proof.
  unfold last_bound.
  induction l as [|x l IH]; intros init d Hne; [congruence|].
  destruct l as [|y l]; [reflexivity|].
  change (fold_left (fun _ z => Some z) (y :: l) (Some x)
          = Some (List.last (y :: l) d)).
  apply IH. discriminate.
Qed.

Lemma train_run (args : Args) (bs : list batch) (GPUs : list Z) (epoch : Z)
    (w : world) :
  exists w' t,
    train args bs GPUs epoch w
    = (match bs with
       | [] => Raises (UnboundLocalError "weighted_loss")
       | _ :: _ => Returns (List.last (pass_losses args bs w) (NaN, NaN))
       end, w', t)
    /\ updates t = List.length bs
    /\ Forall (training_call (backbone_training w) (auxiliary_training w)) t
    /\ backbone_training w' = backbone_training w
    /\ auxiliary_training w' = auxiliary_training w
    /\ scheduler w' = scheduler w
    /\ loader_passes w' = loader_passes w.
Proof.
  destruct (train_loop_run args bs None new_meter w)
    as (w' & t & Hloop & Hlen & Hupd & Hcalls & Hrest).
  assert (Hval : match last_bound None (pass_losses args bs w) with
                 | Some wl => @ret T (pyfloat * pyfloat) wl
                 | None => raise (UnboundLocalError "weighted_loss")
                 end w'
                 = (match bs with
                    | [] => Raises (UnboundLocalError "weighted_loss")
                    | _ :: _ => Returns (List.last (pass_losses args bs w) (NaN, NaN))
                    end, w', [])).
  { destruct bs as [|b bs].
    - reflexivity.
    - rewrite (last_bound_last _ None (NaN, NaN)).
      + reflexivity.
      + intros Hnil. rewrite Hnil in Hlen. discriminate. }
  unfold train, bind.
  destruct (0 <? Z.of_nat (List.length GPUs)); simpl;
    rewrite Hloop; simpl; rewrite Hval; simpl; rewrite app_nil_r.
  - exists w'. eexists. split; [reflexivity|].
    split; [exact Hupd|]. split; [|exact Hrest].
    constructor; [exact I | exact Hcalls].
  - exists w', t. auto.
Qed.

(** ** The epoch loop *)

Lemma epoch_body_run (args : Args) (GPUs : list Z) (tb vb : Z) (e : Z)
    (w : world) :
  epoch_body args GPUs tb vb e w
  = let o1 := train args (train_dataloader tb (loader_passes w)) GPUs e
                (pass_started w) in
    match value o1 with
    | Raises ex => (Raises ex, final o1, EvTrain e :: calls o1)
    | Returns tl =>
        if can_write (checkpoint_filename (snapshot args) e) then
          let v := np_mean (batch_errors (backbone_sd (final o1))
                              (val_dataloader vb)) in
          (Returns tt, after_scheduler v (in_eval_mode (final o1)),
           (EvTrain e :: calls o1 ++
            EvSaveCheckpoint (checkpoint_filename (snapshot args) e)
              {| ck_epoch := e; ck_plfd_backbone := backbone_sd (final o1);
                 ck_auxiliarynet := auxiliary_sd (final o1) |} ::
            EvValidate e :: validation_calls (val_dataloader vb) ++
            [EvSchedulerStep v;
             EvAddScalar "data/weighted_loss" (fst tl) e;
             EvAddScalars "data/loss"
               [("val loss", v); ("train loss", snd tl)] e])%list)
        else (Raises (FileNotFoundError
                        (checkpoint_filename (snapshot args) e)),
              final o1, EvTrain e :: calls o1)
    end.
Proof.
  unfold epoch_body, iterate_train_loader, save_checkpoint, scheduler_step,
    bind, get, put, emit, ret. simpl.
  fold (pass_started w).
  destruct (train args (train_dataloader tb (loader_passes w)) GPUs e
              (pass_started w)) as [[r w1] t1].
  unfold value, final, calls. simpl.
  destruct r as [tl|ex]; [|reflexivity].
  change (PyStr.os_path_join (snapshot args) _)
    with (checkpoint_filename (snapshot args) e).
  destruct (can_write (checkpoint_filename (snapshot args) e));
    [|simpl; now rewrite app_nil_r].
  rewrite validate_run. unfold after_scheduler, in_eval_mode. simpl.
  match goal with
  | |- context [plateau_step ?a ?b ?c] =>
      destruct (plateau_step a b c) as [sc o]
  end.
  simpl. rewrite <- ?app_assoc. reflexivity.
Qed.

Ltac inner_calls :=
  intros ? Hcall; apply training_call_inner in Hcall; tauto.

Lemma epoch_body_returns (args : Args) (GPUs : list Z) (tb vb : Z) (e : Z)
    (w : world) :
  train_dataloader tb (loader_passes w) <> [] ->
  can_write (checkpoint_filename (snapshot args) e) = true ->
  exists w' t,
    epoch_body args GPUs tb vb e w = (Returns tt, w', t)
    /\ loader_passes w' = S (loader_passes w)
    /\ steps t = epoch_steps e
    /\ epochs_begun t = [e]
    /\ epochs_completed t = [e]
    /\ checkpoints_written t = [(checkpoint_filename (snapshot args) e, e)].
Proof.
  intros Hne Hwrite. rewrite epoch_body_run.
  destruct (train_run args (train_dataloader tb (loader_passes w)) GPUs e
              (pass_started w))
    as (w1 & t1 & Htrain & _ & Hcalls & _ & _ & _ & Hlp).
  rewrite Htrain.
  destruct (train_dataloader tb (loader_passes w)) as [|b bs]; [congruence|].
  cbv zeta. unfold value, final, calls. cbn [fst snd]. rewrite Hwrite.
  eexists. eexists. split; [reflexivity|].
  split; [exact Hlp|].
  unfold steps, epochs_begun, epochs_completed, checkpoints_written.
  cbn [collect step_of train_epoch logged_epoch written].
  rewrite !collect_app.
  rewrite !(training_calls_inner _ _ _ t1) by (try exact Hcalls; inner_calls).
  cbn [collect step_of train_epoch logged_epoch written app].
  rewrite !collect_app, !validation_calls_inner by reflexivity.
  repeat split.
Qed.

Lemma epoch_body_raises (args : Args) (GPUs : list Z) (tb vb : Z) (e : Z)
    (w : world) :
  train_dataloader tb (loader_passes w) = []
  \/ can_write (checkpoint_filename (snapshot args) e) = false ->
  exists ex w' t,
    epoch_body args GPUs tb vb e w = (Raises ex, w', t)
    /\ steps t = [StepTrain e]
    /\ epochs_begun t = [e]
    /\ epochs_completed t = []
    /\ checkpoints_written t = [].
Proof.
  intros Hfail. rewrite epoch_body_run.
  destruct (train_run args (train_dataloader tb (loader_passes w)) GPUs e
              (pass_started w))
    as (w1 & t1 & Htrain & _ & Hcalls & _).
  rewrite Htrain.
  assert (Hreadings :
            steps (EvTrain e :: t1) = [StepTrain e]
            /\ epochs_begun (EvTrain e :: t1) = [e]
            /\ epochs_completed (EvTrain e :: t1) = []
            /\ checkpoints_written (EvTrain e :: t1) = []).
  { unfold steps, epochs_begun, epochs_completed, checkpoints_written.
    cbn [collect step_of train_epoch logged_epoch written].
    rewrite !(training_calls_inner _ _ _ t1)
      by (try exact Hcalls; inner_calls).
    repeat split. }
  cbv zeta. unfold value, final, calls. cbn [fst snd].
  destruct (train_dataloader tb (loader_passes w)) as [|b bs].
  - eexists. eexists. eexists. split; [reflexivity | exact Hreadings].
  - destruct Hfail as [Hnil | Hwrite]; [discriminate|].
    rewrite Hwrite.
    eexists. eexists. eexists. split; [reflexivity | exact Hreadings].
Qed.

(** The epoch loop, whatever happens: the iterations that ran to their end
    are the first of the range, each wrote its checkpoint, and the steps
    made are the first of the steps of a full run. *)
Lemma epoch_loop_any (args : Args) (GPUs : list Z) (tb vb : Z)
    (epochs : list Z) :
  forall w : world,
  exists r w' t done rest srest,
    epoch_loop args GPUs tb vb epochs w = (r, w', t)
    /\ epochs = (done ++ rest)%list
    /\ epochs_completed t = done
    /\ checkpoints_written t
       = map (fun e => (checkpoint_filename (snapshot args) e, e)) done
    /\ (steps t ++ srest)%list = flat_map epoch_steps epochs
    /\ hd_error (epochs_begun t) = hd_error epochs
    /\ (r = Returns tt -> rest = [] /\ srest = [])
    /\ ((forall k, train_dataloader tb k <> []) ->
        (forall e, In e epochs ->
                   can_write (checkpoint_filename (snapshot args) e) = true) ->
        r = Returns tt).
Proof.
  induction epochs as [|e epochs IH]; intros w.
  - exists (Returns tt), w, [], [], [], []. simpl. unfold ret. repeat split.
  - simpl. unfold bind at 1.
    assert (Hcases :
              (train_dataloader tb (loader_passes w) = []
               \/ can_write (checkpoint_filename (snapshot args) e) = false)
              \/ (train_dataloader tb (loader_passes w) <> []
                  /\ can_write (checkpoint_filename (snapshot args) e) = true)).
    { destruct (train_dataloader tb (loader_passes w)); [now left; left|].
      destruct (can_write (checkpoint_filename (snapshot args) e));
        [right; split; [discriminate | reflexivity] | now left; right]. }
    destruct Hcases as [Hfail | [Hne Hwrite]].
    + destruct (epoch_body_raises args GPUs tb vb e w Hfail)
        as (ex & w1 & t1 & Hbody & Hsteps & Hbegun & Hdone & Hwritten).
      rewrite Hbody.
      exists (Raises ex), w1, t1, [],
        (e :: epochs), (tl (epoch_steps e) ++ flat_map epoch_steps epochs)%list.
      rewrite Hsteps, Hbegun, Hdone, Hwritten. repeat split; try discriminate.
      intros Hall Hcan. exfalso. destruct Hfail as [Hnil | Hno].
      * exact (Hall _ Hnil).
      * rewrite (Hcan e (or_introl eq_refl)) in Hno. discriminate.
    + destruct (epoch_body_returns args GPUs tb vb e w Hne Hwrite)
        as (w1 & t1 & Hbody & _ & Hsteps & Hbegun & Hdone & Hwritten).
      rewrite Hbody.
      destruct (IH w1)
        as (r & w2 & t2 & done & rest & srest & Hloop & Hsplit & Hdone2
            & Hwritten2 & Hsteps2 & _ & Hret & Hok).
      rewrite Hloop.
      exists r, w2, (t1 ++ t2)%list, (e :: done), rest, srest.
      unfold steps, epochs_begun, epochs_completed, checkpoints_written in *.
      rewrite !collect_app, Hsteps, Hbegun, Hdone, Hwritten, Hdone2, Hwritten2.
      repeat split; auto.
      * simpl. now rewrite Hsplit.
      * rewrite <- app_assoc, Hsteps2. reflexivity.
      * apply Hret; assumption.
      * apply Hret; assumption.
Qed.

Lemma train_step_eq (args : Args) (b : batch) (w : world) :
  train_step args b w
  = (Returns (step_losses args b w), after_step args b w,
     [EvBackboneForward (img b) (backbone_training w) true;
      EvAuxiliaryForward (fst (fst (backbone_pass w (img b))))
        (auxiliary_training w) true;
      EvZeroGrad; EvBackward; EvOptimizerStep]).
Proof.
  unfold train_step, forward_backbone, forward_auxiliary, gradient_update,
    step_losses, after_step, backbone_pass, auxiliary_pass,
    bind, get, put, emit, ret.
  destruct w as [bsd bt asd at' o sc n].
  cbn [backbone_sd backbone_training auxiliary_sd auxiliary_training
       optimizer scheduler loader_passes].
  destruct bt.
  - destruct (backbone_train bsd (img b)) as [out bsd'].
    cbn [fst snd app backbone_sd backbone_training auxiliary_sd
         auxiliary_training optimizer scheduler loader_passes].
    destruct at'.
    + destruct (auxiliary_train asd (fst out)) as [ang asd'].
      cbn [fst snd app backbone_sd backbone_training auxiliary_sd
           auxiliary_training optimizer scheduler loader_passes].
      destruct (adam_step o _ bsd' asd') as [o' [b' a']]. reflexivity.
    + cbn [fst snd app backbone_sd backbone_training auxiliary_sd
           auxiliary_training optimizer scheduler loader_passes].
      destruct (adam_step o _ bsd' asd) as [o' [b' a']]. reflexivity.
  - cbn [fst snd app backbone_sd backbone_training auxiliary_sd
         auxiliary_training optimizer scheduler loader_passes].
    destruct at'.
    + destruct (auxiliary_train asd (fst (backbone_eval bsd (img b))))
        as [ang asd'].
      cbn [fst snd app backbone_sd backbone_training auxiliary_sd
           auxiliary_training optimizer scheduler loader_passes].
      destruct (adam_step o _ bsd asd') as [o' [b' a']]. reflexivity.
    + cbn [fst snd app backbone_sd backbone_training auxiliary_sd
           auxiliary_training optimizer scheduler loader_passes].
      destruct (adam_step o _ bsd asd) as [o' [b' a']]. reflexivity.
Qed.

Lemma pass_losses_eq (args : Args) (bs : list batch) :
  forall w, pass_losses args bs w = losses_of_pass args bs w.
Proof.
  induction bs as [|b bs IH]; intros w; [reflexivity|].
  cbn [pass_losses losses_of_pass]. rewrite train_step_eq. now rewrite IH.
Qed.

Lemma train_loop_final (args : Args) (bs : list batch) :
  forall last m w,
    final (train_loop args bs last m w) = after_pass args bs w.
Proof.
  induction bs as [|b bs IH]; intros last m w; [reflexivity|].
  cbn [train_loop]. unfold bind at 1. rewrite train_step_eq.
  specialize (IH (Some (step_losses args b w))
                (meter_update m (snd (step_losses args b w)))
                (after_step args b w)).
  destruct (train_loop args bs _ _ (after_step args b w)) as [[r w'] t].
  unfold final in *. cbn [fst snd] in *. exact IH.
Qed.

Lemma train_final (args : Args) (bs : list batch) (GPUs : list Z) (epoch : Z)
    (w : world) :
  final (train args bs GPUs epoch w) = after_pass args bs w.
Proof.
  rewrite <- (train_loop_final args bs None new_meter w).
  unfold train, bind.
  destruct (0 <? Z.of_nat (List.length GPUs)); cbn [emit ret];
    destruct (train_loop args bs None new_meter w) as [[[[[wl|] m]|ex] w'] t];
    reflexivity.
Qed.

(** C5: in a training pass over at least one batch, each step runs the
    two forward passes, has the criterion compute the weighted and the
    plain loss from the outputs of these passes and the ground truth of its
    batch, and makes one gradient-descent update (zero_grad, backward,
    step) that leaves the tensors and the optimizer as Adam updates them
    with the gradients of that loss; the pass leaves the objects as one
    such update per batch, in order, leaves them, and makes as many
    optimizer steps as there are batches; the meter is passed the plain
    loss of every step, so its average is their mean; [train] returns the
    two losses of the last step, and the epoch loop (once the checkpoint
    is written) logs exactly these two values for the epoch. *)
Theorem train_spec (args : Args) (bs : list batch) (GPUs : list Z)
    (epoch : Z) (w : world) :
  bs <> [] ->
  (forall (b : batch) (w0 : world),
      train_step args b w0
      = (Returns (step_losses args b w0), after_step args b w0,
         [EvBackboneForward (img b) (backbone_training w0) true;
          EvAuxiliaryForward (fst (fst (backbone_pass w0 (img b))))
            (auxiliary_training w0) true;
          EvZeroGrad; EvBackward; EvOptimizerStep]))
  /\ List.length (losses_of_pass args bs w) = List.length bs
  /\ final (train args bs GPUs epoch w) = after_pass args bs w
  /\ updates (calls (train args bs GPUs epoch w)) = List.length bs
  /\ (exists m : AverageMeter,
        value (train_loop args bs None new_meter w)
        = Returns (Some (List.last (losses_of_pass args bs w) (NaN, NaN)), m)
        /\ passed m = map snd (losses_of_pass args bs w)
        /\ meter_avg m = np_mean (map snd (losses_of_pass args bs w)))
  /\ value (train args bs GPUs epoch w)
     = Returns (List.last (losses_of_pass args bs w) (NaN, NaN))
  /\ (forall (tb vb : Z) (w0 : world),
        train_dataloader tb (loader_passes w0) = bs ->
        can_write (checkpoint_filename (snapshot args) epoch) = true ->
        exists before v,
          calls (epoch_body args GPUs tb vb epoch w0)
          = (before ++
             [EvSchedulerStep v;
              EvAddScalar "data/weighted_loss"
                (fst (List.last (losses_of_pass args bs (pass_started w0))
                        (NaN, NaN))) epoch;
              EvAddScalars "data/loss"
                [("val loss", v);
                 ("train loss",
                  snd (List.last (losses_of_pass args bs (pass_started w0))
                         (NaN, NaN)))] epoch])%list).
Proof.
  intros Hne. split; [|split; [|split; [|split; [|split; [|split]]]]].
  - intros b w0. apply train_step_eq.
  - destruct (train_loop_run args bs None new_meter w)
      as (w' & t & _ & Hlen & _).
    rewrite <- pass_losses_eq. exact Hlen.
  - apply train_final.
  - destruct (train_run args bs GPUs epoch w) as (w' & t & Htrain & Hupd & _).
    rewrite Htrain. exact Hupd.
  - destruct (train_loop_run args bs None new_meter w)
      as (w' & t & Hloop & Hlen & _).
    rewrite Hloop, <- pass_losses_eq. eexists. unfold value. cbn [fst].
    rewrite (last_bound_last _ None (NaN, NaN)).
    + split; [reflexivity|]. split; reflexivity.
    + intros Hnil. rewrite Hnil in Hlen. destruct bs; [congruence|discriminate].
  - destruct (train_run args bs GPUs epoch w) as (w' & t & Htrain & _).
    rewrite Htrain, <- pass_losses_eq. destruct bs; [congruence | reflexivity].
  - intros tb vb w0 Hpass Hwrite. rewrite epoch_body_run, Hpass.
    destruct (train_run args bs GPUs epoch (pass_started w0))
      as (w' & t & Htrain & _).
    rewrite Htrain, <- pass_losses_eq. destruct bs as [|b bs']; [congruence|].
    cbv zeta. unfold value, final, calls. cbn [fst snd]. rewrite Hwrite.
    cbn [fst snd].
    eexists. eexists.
    rewrite app_comm_cons.
    change (EvSaveCheckpoint ?f ?c :: EvValidate ?e :: ?l ++ ?r)%list
      with ((EvSaveCheckpoint f c :: EvValidate e :: l) ++ r)%list.
    rewrite app_assoc. reflexivity.
Qed.

(** ** [main] *)

(** A run of [main], whatever happens. *)
Lemma main_any (torch_load : disk) (args : Args) :
  exists done rest srest,
    py_range (start_epoch args) (end_epoch args + 1) = (done ++ rest)%list
    /\ epochs_completed (calls (main torch_load args)) = done
    /\ checkpoints_written (calls (main torch_load args))
       = map (fun e => (checkpoint_filename (snapshot args) e, e)) done
    /\ (steps (calls (main torch_load args)) ++ srest)%list
       = (flat_map epoch_steps
            (py_range (start_epoch args) (end_epoch args + 1)) ++ [StepClose])%list
    /\ (value (main torch_load args) = Returns tt -> rest = [] /\ srest = [])
    /\ (forall GPUs m,
          parse_gpus (devices_id args) = Some GPUs ->
          load_modules torch_load args = Returns m ->
          hd_error (epochs_begun (calls (main torch_load args)))
          = hd_error (py_range (start_epoch args) (end_epoch args + 1))
          /\ ((forall k, train_dataloader
                           (scale_batchsize GPUs (train_batchsize args)) k <> []) ->
              (forall e, In e (py_range (start_epoch args) (end_epoch args + 1)) ->
                         can_write (checkpoint_filename (snapshot args) e)
                         = true) ->
              value (main torch_load args) = Returns tt)).
Proof.
  unfold main.
  destruct (parse_gpus (devices_id args)) as [GPUs|].
  2:{ exists [], (py_range (start_epoch args) (end_epoch args + 1)).
      eexists. unfold value, calls. simpl.
      repeat split; try discriminate; reflexivity. }
  destruct (load_modules torch_load args) as [[bsd asd]|ex].
  2:{ exists [], (py_range (start_epoch args) (end_epoch args + 1)).
      eexists. unfold value, calls. simpl.
      repeat split; try discriminate; reflexivity. }
  cbv zeta. unfold bind.
  match goal with
  | |- context [epoch_loop ?a ?g ?tb ?vb ?es ?w] =>
      destruct (epoch_loop_any a g tb vb es w)
        as (r & w' & t & done & rest & srest & Hloop & Hsplit & Hdone
            & Hwritten & Hsteps & Hhd & Hret & Hok);
      rewrite Hloop
  end.
  destruct r as [[]|ex].
  - destruct (Hret eq_refl) as [Hrest Hsrest]. subst rest srest.
    exists done, [], []. unfold value, calls, emit. cbn [fst snd].
    unfold steps, epochs_begun, epochs_completed, checkpoints_written in *.
    rewrite !collect_app, Hdone, Hwritten. simpl.
    rewrite !app_nil_r in *. rewrite Hsteps.
    repeat split; auto.
  - exists done, rest, (srest ++ [StepClose])%list.
    unfold value, calls. cbn [fst snd].
    rewrite app_assoc, Hsteps.
    repeat split; auto; try discriminate.
    match goal with H : Some _ = Some _ |- _ => injection H as <- end.
    exact Hok.
Qed.

(** C4: the calls that the epoch loop makes are, for each epoch of the
    range in turn: [train], one checkpoint write, [validate], one scheduler
    step, the two scalar logs; a run that raises stops somewhere in this
    sequence, a run that returns has made all of it and closed the writer.
    No epoch has more than one checkpoint.  In an iteration whose training
    pass returns and whose checkpoint can be written, the checkpoint holds
    the tensors as training left them and the scheduler is stepped with the
    value that [validate] returned. *)
Theorem epoch_steps_in_order (torch_load : disk) (args : Args) :
  (exists srest,
      (steps (calls (main torch_load args)) ++ srest)%list
      = (flat_map epoch_steps
           (py_range (start_epoch args) (end_epoch args + 1))
         ++ [StepClose])%list
      /\ (value (main torch_load args) = Returns tt -> srest = []))
  /\ (forall e : Z,
        (count_occ Z.eq_dec
           (map snd (checkpoints_written (calls (main torch_load args)))) e
         <= 1)%nat)
  /\ (forall (GPUs : list Z) (tb vb e : Z) (w : world) (tl : pyfloat * pyfloat),
        value (train args (train_dataloader tb (loader_passes w)) GPUs e
                 (pass_started w)) = Returns tl ->
        can_write (checkpoint_filename (snapshot args) e) = true ->
        exists v,
          value (validate (val_dataloader vb) e
                   (final (train args (train_dataloader tb (loader_passes w))
                             GPUs e (pass_started w)))) = Returns v
          /\ calls (epoch_body args GPUs tb vb e w)
             = (EvTrain e ::
                calls (train args (train_dataloader tb (loader_passes w))
                         GPUs e (pass_started w)) ++
                EvSaveCheckpoint (checkpoint_filename (snapshot args) e)
                  {| ck_epoch := e;
                     ck_plfd_backbone :=
                       backbone_sd
                         (final (train args
                                   (train_dataloader tb (loader_passes w))
                                   GPUs e (pass_started w)));
                     ck_auxiliarynet :=
                       auxiliary_sd
                         (final (train args
                                   (train_dataloader tb (loader_passes w))
                                   GPUs e (pass_started w))) |} ::
                EvValidate e ::
                calls (validate (val_dataloader vb) e
                         (final (train args
                                   (train_dataloader tb (loader_passes w))
                                   GPUs e (pass_started w)))) ++
                [EvSchedulerStep v;
                 EvAddScalar "data/weighted_loss" (fst tl) e;
                 EvAddScalars "data/loss"
                   [("val loss", v); ("train loss", snd tl)] e])%list).
Proof.
  destruct (main_any torch_load args)
    as (done & rest & srest & Hsplit & Hdone & Hwritten & Hsteps & Hret & _).
  split; [|split].
  - exists srest. split; [exact Hsteps|]. intros H. now apply Hret.
  - rewrite Hwritten, map_map. cbn [snd]. rewrite map_id.
    apply NoDup_count_occ.
    apply (NoDup_app_remove_r done rest). rewrite <- Hsplit.
    apply py_range_NoDup.
  - intros GPUs tb vb e w tl Htrain Hwrite.
    rewrite epoch_body_run. cbv zeta. rewrite Htrain, Hwrite.
    rewrite validate_run. unfold value, calls. cbn [fst snd].
    eexists. split; reflexivity.
Qed.

(** C6, as amended: a run of [main] that returns has gone through exactly
    the epochs [start_epoch], ..., [end_epoch]: [end_epoch - start_epoch + 1]
    iterations when [start_epoch <= end_epoch], none otherwise; and a run
    in which no step raises (the GPU ids parse, the modules load, every
    pass over the training loader yields a batch, every checkpoint can be
    written) does return.  The loop has no other way out: a run stops
    early only by an exception. *)
Theorem epoch_loop_iterations (torch_load : disk) (args : Args) :
  (value (main torch_load args) = Returns tt ->
   epochs_completed (calls (main torch_load args))
   = py_range (start_epoch args) (end_epoch args + 1)
   /\ (start_epoch args <= end_epoch args ->
       Z.of_nat (List.length (epochs_completed (calls (main torch_load args))))
       = end_epoch args - start_epoch args + 1)
   /\ (start_epoch args > end_epoch args ->
       epochs_completed (calls (main torch_load args)) = []))
  /\ (forall (GPUs : list Z) (m : state_dict * state_dict),
        parse_gpus (devices_id args) = Some GPUs ->
        load_modules torch_load args = Returns m ->
        (forall k, train_dataloader
                     (scale_batchsize GPUs (train_batchsize args)) k <> []) ->
        (forall e, In e (py_range (start_epoch args) (end_epoch args + 1)) ->
                   can_write (checkpoint_filename (snapshot args) e) = true) ->
        value (main torch_load args) = Returns tt).
Proof.
  destruct (main_any torch_load args)
    as (done & rest & srest & Hsplit & Hdone & _ & _ & Hret & Hok).
  split.
  - intros Hval. destruct (Hret Hval) as [Hrest _]. subst rest.
    rewrite app_nil_r in Hsplit. rewrite Hdone, <- Hsplit.
    split; [reflexivity|]. split.
    + intros Hle. rewrite py_range_length. lia.
    + intros Hgt. apply py_range_empty. lia.
  - intros GPUs m HG Hload Hall Hcan.
    destruct (Hok GPUs m HG Hload) as [_ H]. exact (H Hall Hcan).
Qed.

Lemma checkpoint_filename_format (snap : string) (e : Z) :
  checkpoint_filename snap e
  = (snap ++ join_separator snap ++ "checkpoint_epoch_" ++ PyStr.str e
     ++ ".pth.tar")%string.
Proof.
  unfold checkpoint_filename, checkpoint_basename, PyStr.os_path_join,
    join_separator.
  cbn [PyStr.startswith_sep append Ascii.eqb Bool.eqb].
  destruct (String.eqb snap EmptyString || PyStr.endswith_sep snap);
    reflexivity.
Qed.

(** C8: every checkpoint that a run writes is named by the snapshot
    directory and the epoch alone: the directory, a "/" unless the directory
    is empty or ends with one, then "checkpoint_epoch_", the epoch in
    decimal, and ".pth.tar"; the epoch is the one recorded in the file and
    one of the epochs of the run. *)
Theorem checkpoint_filename_spec (torch_load : disk) (args : Args) :
  Forall (fun fe : string * Z =>
            fst fe = (snapshot args ++ join_separator (snapshot args)
                      ++ "checkpoint_epoch_" ++ PyStr.str (snd fe)
                      ++ ".pth.tar")%string
            /\ In (snd fe)
                 (py_range (start_epoch args) (end_epoch args + 1)))
    (checkpoints_written (calls (main torch_load args))).
Proof.
  destruct (main_any torch_load args)
    as (done & rest & srest & Hsplit & _ & Hwritten & _).
  rewrite Hwritten, Forall_map, Forall_forall.
  intros e He. cbn [fst snd]. split.
  - apply checkpoint_filename_format.
  - rewrite Hsplit. apply in_or_app. now left.
Qed.



(** The training pass that follows a validation pass runs with both
    modules in evaluation mode: [validate] switched them and [train] does
    not switch them back. *)
Lemma train_after_validate_in_eval_mode (args : Args)
    (val_bs train_bs : list batch) (GPUs : list Z) (e e' : Z) (w : world) :
  Forall ran_in_eval_mode
    (calls (train args train_bs GPUs e' (final (validate val_bs e w)))).
Proof.
  rewrite validate_run. unfold final. cbn [fst snd].
  destruct (train_run args train_bs GPUs e' (in_eval_mode w))
    as (w' & t & Htrain & _ & Hcalls & _).
  rewrite Htrain. unfold calls. cbn [snd].
  eapply Forall_impl; [|exact Hcalls].
  intros ev. unfold ran_in_eval_mode.
  destruct ev; simpl; tauto.
Qed.

(** C10: [--base_lr] is converted by [int]: a command line that gives it
    a string with a decimal point, such as "0.0001", makes the script exit
    with the parser's error before [main] makes any call; when parsing
    succeeds, [base_lr] is the float default 0.0001 if the option is absent
    and an integer if it is present. *)
Theorem base_lr_is_int_typed (torch_load : disk) (cl : cmdline) :
  (forall s : string,
      In ("base_lr", s) cl -> PyStr.has_point s = true ->
      parse_args py_float cl = Raises (SystemExit 2)
      /\ script torch_load cl = (Raises (SystemExit 2), None, []))
  /\ (forall args : Args,
        parse_args py_float cl = Returns args ->
        match occurrences cl "base_lr" with
        | [] => base_lr args = PyFloat (Fin (1 # 10000))
        | _ :: _ => exists z, base_lr args = PyInt z
        end).
Proof.
  split.
  - intros s Hin Hpoint.
    assert (H : parse_args py_float cl = Raises (SystemExit 2)).
    { apply parse_args_base_lr_fails. unfold add_argument.
      apply (convert_all_fails _ _ s).
      - now apply occurrences_In.
      - unfold type_base_lr. now rewrite int_point. }
    split; [exact H|]. unfold script. now rewrite H.
  - intros args Hargs. apply parse_args_base_lr in Hargs.
    unfold add_argument in Hargs. now apply convert_all_base_lr in Hargs.
Qed.

End Properties.

(** * Further properties *)

(** ** Strings and integers *)

Lemma lower_capital_char (c : ascii) :
  PyStr.lower_char (capital_char c) = PyStr.lower_char c.
Proof. destruct c as [[] [] [] [] [] [] [] []]; reflexivity. Qed.

Lemma lower_capitals (s : string) : PyStr.lower (capitals s) = PyStr.lower s.
Proof.
  induction s as [|c s IH]; simpl; [reflexivity|].
  now rewrite lower_capital_char, IH.
Qed.

Lemma lower_same_up_to_case (s : string) :
  forall t, same_up_to_case s t -> PyStr.lower s = PyStr.lower t.
Proof.
  induction s as [|c s IH]; intros [|d t]; simpl; try tauto.
  intros [Hc Hs]. rewrite (IH t Hs). f_equal.
  destruct Hc as [-> | [-> | ->]];
    [reflexivity | now rewrite lower_capital_char | apply lower_capital_char].
Qed.

(** X1: [str2bool] does not see the case of the letters [a]-[z] of its
    argument: it gives the same answer (the same boolean or the same error)
    for a string and for the string with these letters in capitals, and
    for any two strings that differ at most in the case of such letters. *)
Theorem str2bool_ignores_case (v : string) :
  str2bool (capitals v) = str2bool v
  /\ (forall w, same_up_to_case v w -> str2bool v = str2bool w).
Proof.
  unfold str2bool. split.
  - now rewrite lower_capitals.
  - intros w H. now rewrite (lower_same_up_to_case v w H).
Qed.

Lemma digits_numeral (d : Decimal.uint) :
  forall acc prev,
    d <> Decimal.Nil \/ prev = PyStr.SeenDigit ->
    PyStr.digits acc prev (NilEmpty.string_of_uint d)
    = Some (numeral_value acc d).
Proof.
  induction d; intros acc prev H;
    try (cbn; apply IHd; now right).
  destruct H as [H | ->]; [congruence | reflexivity].
Qed.

Lemma numeral_value_acc (d : Decimal.uint) :
  forall acc : positive,
    numeral_value (Z.pos acc) d = Z.pos (Pos.of_uint_acc d acc).
Proof.
  induction d; intros acc; cbn [numeral_value Pos.of_uint_acc];
    try reflexivity;
    rewrite <- IHd; f_equal; lia.
Qed.

Lemma numeral_value_0 (d : Decimal.uint) :
  numeral_value 0 d = Z.of_N (Pos.of_uint d).
Proof.
  induction d; cbn [numeral_value Pos.of_uint Z.mul Z.add];
    try reflexivity; try exact IHd;
    apply (numeral_value_acc d).
Qed.

Lemma numeral_value_to_uint (p : positive) :
  numeral_value 0 (Pos.to_uint p) = Z.pos p.
Proof.
  now rewrite numeral_value_0, DecimalPos.Unsigned.of_to.
Qed.

Lemma int_of_numeral (d : Decimal.uint) :
  d <> Decimal.Nil ->
  PyStr.int (NilEmpty.string_of_uint d) = Some (numeral_value 0 d)
  /\ PyStr.int (String "-" (NilEmpty.string_of_uint d))
     = Some (- numeral_value 0 d).
Proof.
  intros Hd. split.
  - rewrite <- (digits_numeral d 0 PyStr.SeenNothing) by now left.
    destruct d; [congruence | reflexivity ..].
  - unfold PyStr.int. cbn [PyStr.lstrip PyStr.is_space].
    change (PyStr.is_space "-") with false. cbv iota.
    rewrite (digits_numeral d 0 PyStr.SeenNothing) by now left.
    reflexivity.
Qed.

(** [int(str(n))] is [n]. *)
Lemma int_str (n : Z) : PyStr.int (PyStr.str n) = Some n.
Proof.
  destruct n as [|p|p]; [reflexivity| |];
    unfold PyStr.str; cbn [Z.to_int NilZero.string_of_int];
    assert (Hnn : Pos.to_uint p <> Decimal.Nil)
      by (intros E; pose proof (numeral_value_to_uint p) as Hv;
          rewrite E in Hv; discriminate);
    destruct (int_of_numeral _ Hnn) as [Hpos Hneg];
    rewrite numeral_value_to_uint in Hpos, Hneg;
    destruct (Pos.to_uint p); try congruence; assumption.
Qed.

Lemma str_injective (a b : Z) : PyStr.str a = PyStr.str b -> a = b.
Proof.
  intros H. apply (f_equal PyStr.int) in H. rewrite !int_str in H.
  now injection H.
Qed.

(** ** The GPU list *)

Lemma split_comma_length (s : string) :
  List.length (PyStr.split_comma s) = S (commas s).
Proof.
  induction s as [|c s IH]; simpl; [reflexivity|].
  destruct (Ascii.eqb c ","); simpl; [now rewrite IH|].
  destruct (PyStr.split_comma s); simpl in *; [discriminate | exact IH].
Qed.

Lemma int_all_length (l : list string) :
  forall g, int_all l = Some g -> List.length g = List.length l.
Proof.
  induction l as [|x l IH]; simpl; intros g H.
  - injection H as <-. reflexivity.
  - destruct (PyStr.int x); [|discriminate].
    destruct (int_all l) as [g'|]; [|discriminate].
    injection H as <-. simpl. now rewrite (IH g').
Qed.

Lemma int_all_none (l : list string) (x : string) :
  In x l -> PyStr.int x = None -> int_all l = None.
Proof.
  intros Hin Hx. induction l as [|y l IH]; [contradiction|].
  simpl. destruct Hin as [-> | Hin]; [now rewrite Hx|].
  destruct (PyStr.int y); [|reflexivity]. now rewrite (IH Hin).
Qed.

Lemma split_comma_trailing (s : string) :
  exists h l, PyStr.split_comma (s ++ ",") = (h :: l ++ [EmptyString])%list.
Proof.
  induction s as [|c s (h & l & IH)]; simpl.
  - exists EmptyString, []. reflexivity.
  - rewrite IH. destruct (Ascii.eqb c ",").
    + exists EmptyString, (h :: l). reflexivity.
    + exists (String c h), l. reflexivity.
Qed.

(** X2: the list of GPU ids that [main] reads off [--devices_id] has one
    element more than the string has commas, so it is never empty: [main]
    always multiplies the batch sizes by the number of GPUs and [train]
    always sets CUDA_VISIBLE_DEVICES.  A string that ends with a comma
    makes [int] raise. *)
Theorem gpus_never_empty (ids : string) :
  (forall GPUs : list Z,
      parse_gpus ids = Some GPUs ->
      List.length GPUs = S (commas ids)
      /\ GPUs <> []
      /\ (0 <? Z.of_nat (List.length GPUs)) = true
      /\ (forall b, scale_batchsize GPUs b = b * Z.of_nat (List.length GPUs)))
  /\ parse_gpus (ids ++ ",") = None.
Proof.
  split.
  - intros GPUs H. unfold parse_gpus in H.
    apply int_all_length in H. rewrite split_comma_length in H.
    split; [exact H|]. split; [|split].
    + intros ->. discriminate.
    + apply Z.ltb_lt. lia.
    + intros b. unfold scale_batchsize.
      destruct (Z.eqb_spec (Z.of_nat (List.length GPUs)) 0); [lia | reflexivity].
  - unfold parse_gpus.
    destruct (split_comma_trailing ids) as (h & l & ->).
    apply (int_all_none _ EmptyString); [|reflexivity].
    right. apply in_or_app. right. now left.
Qed.

Lemma commas_of_uint (d : Decimal.uint) : commas (NilEmpty.string_of_uint d) = 0%nat.
Proof. induction d; simpl; auto. Qed.

Lemma commas_str (n : Z) : commas (PyStr.str n) = 0%nat.
Proof.
  unfold PyStr.str.
  destruct (Z.to_int n) as [d|d]; cbn [NilZero.string_of_int commas Ascii.eqb];
    destruct d; try reflexivity;
    cbn [NilZero.string_of_uint]; try apply commas_of_uint;
    cbn [Bool.eqb]; apply commas_of_uint.
Qed.

Lemma split_comma_plain (s : string) :
  commas s = 0%nat -> PyStr.split_comma s = [s].
Proof.
  induction s as [|c s IH]; simpl; [reflexivity|].
  destruct (Ascii.eqb c ","); [discriminate|].
  intros H. now rewrite (IH H).
Qed.

Lemma split_comma_app (s r : string) :
  commas s = 0%nat ->
  PyStr.split_comma (s ++ String "," r) = s :: PyStr.split_comma r.
Proof.
  induction s as [|c s IH]; simpl; [reflexivity|].
  destruct (Ascii.eqb c ","); [discriminate|].
  intros H. now rewrite (IH H).
Qed.

Lemma split_comma_concat (l : list string) :
  l <> [] -> Forall (fun s => commas s = 0%nat) l ->
  PyStr.split_comma (String.concat "," l) = l.
Proof.
  induction l as [|x l IH]; [congruence|].
  intros _ Hall. inversion Hall as [|? ? Hx Hl]; subst.
  destruct l as [|y l].
  - simpl. now apply split_comma_plain.
  - change (String.concat "," (x :: y :: l))
      with (x ++ String "," (String.concat "," (y :: l))).
    rewrite split_comma_app by assumption.
    f_equal. apply IH; [discriminate | assumption].
Qed.

Lemma int_all_str (l : list Z) : int_all (map PyStr.str l) = Some l.
Proof.
  induction l as [|n l IH]; simpl; [reflexivity|].
  now rewrite int_str, IH.
Qed.

(** ** Checkpoint names *)

Lemma length_append (a b : string) :
  String.length (a ++ b) = (String.length a + String.length b)%nat.
Proof. induction a as [|c a IH]; simpl; [reflexivity | now rewrite IH]. Qed.

Lemma append_cancel_l (s a b : string) : (s ++ a = s ++ b -> a = b)%string.
Proof.
  induction s as [|c s IH]; simpl; [auto|].
  intros H. injection H as H. auto.
Qed.

Lemma append_cancel_r (s : string) :
  forall a b : string, (a ++ s = b ++ s -> a = b)%string.
Proof.
  induction a as [|c a IH]; intros [|c' b] H; simpl in H.
  - reflexivity.
  - apply (f_equal String.length) in H. simpl in H.
    rewrite length_append in H. lia.
  - apply (f_equal String.length) in H. simpl in H.
    rewrite length_append in H. lia.
  - injection H as -> H. f_equal. now apply IH.
Qed.

Lemma checkpoint_filename_injective (snap : string) (e1 e2 : Z) :
  checkpoint_filename snap e1 = checkpoint_filename snap e2 -> e1 = e2.
Proof.
  rewrite !checkpoint_filename_format. intros H.
  apply append_cancel_l, append_cancel_l, append_cancel_l in H.
  apply append_cancel_r in H. now apply str_injective.
Qed.

(** ** The command line *)

Lemma convert_all_last {A : Type} (type : string -> option A)
    (vs : list string) (v : string) :
  forall cur x,
    convert_all type (vs ++ [v]) cur = Returns x -> type v = Some x.
Proof.
  induction vs as [|u vs IH]; intros cur x; simpl.
  - destruct (type v); [congruence | discriminate].
  - destruct (type u); [apply IH | discriminate].
Qed.

Lemma parse_args_fields (py_float : string -> option pyfloat) (cl : cmdline)
    (args : Args) :
  parse_args py_float cl = Returns args ->
  add_argument cl "test_initial" false type_str2bool
  = Returns (test_initial args)
  /\ add_argument cl "start_epoch" 1 type_int = Returns (start_epoch args)
  /\ add_argument cl "end_epoch" 1000 type_int = Returns (end_epoch args).
Proof.
  unfold parse_args, rbind.
  destruct (forallb _ cl); [|discriminate].
  repeat match goal with
         | |- context [match add_argument ?c ?d ?v ?t with _ => _ end] =>
             destruct (add_argument c d v t); [|discriminate]
         end.
  intros H. injection H as <-. repeat split.
Qed.

Lemma parse_args_test_initial_fails (py_float : string -> option pyfloat)
    (cl : cmdline) :
  add_argument cl "test_initial" false type_str2bool = Raises (SystemExit 2) ->
  parse_args py_float cl = Raises (SystemExit 2).
Proof.
  intros H. unfold parse_args, rbind.
  destruct (forallb _ cl); [|reflexivity].
  destruct (add_argument cl "workers" 16 type_int) eqn:H1;
    [|apply convert_all_raises in H1; now subst].
  destruct (add_argument cl "devices_id" "0" type_str) eqn:H2;
    [|apply convert_all_raises in H2; now subst].
  now rewrite H.
Qed.

(** X4: [--test_initial] goes through [str2bool]: an occurrence that
    [str2bool] rejects ends the script with exit status 2; when parsing
    succeeds the flag is what [str2bool] returns for the last occurrence,
    and [False] when the option is absent. *)
Theorem test_initial_is_str2bool (py_float : string -> option pyfloat)
    (cl : cmdline) :
  (forall v,
      In ("test_initial", v) cl -> (forall b, str2bool v <> Returns b) ->
      parse_args py_float cl = Raises (SystemExit 2))
  /\ (forall args,
        parse_args py_float cl = Returns args ->
        (occurrences cl "test_initial" = [] -> test_initial args = false)
        /\ (forall vs v,
              occurrences cl "test_initial" = (vs ++ [v])%list ->
              str2bool v = Returns (test_initial args))).
Proof.
  split.
  - intros v Hin Hrej. apply parse_args_test_initial_fails.
    unfold add_argument. apply (convert_all_fails _ _ v).
    + now apply occurrences_In.
    + unfold type_str2bool. destruct (str2bool v) as [b|]; [|reflexivity].
      exfalso. now apply (Hrej b).
  - intros args Hargs. apply parse_args_fields in Hargs.
    destruct Hargs as [Hti _]. unfold add_argument in Hti. split.
    + intros Hnone. rewrite Hnone in Hti. simpl in Hti. congruence.
    + intros vs v Hocc. rewrite Hocc in Hti.
      apply convert_all_last in Hti. unfold type_str2bool in Hti.
      destruct (str2bool v); congruence.
Qed.

(** X5: when parsing succeeds, the first and the last epoch of the run are
    what [int] makes of the last [--start_epoch] and of the last
    [--end_epoch] on the command line, and 1 and 1000 when these options
    are absent. *)
Theorem epoch_range_of_command_line (py_float : string -> option pyfloat)
    (cl : cmdline) (args : Args) :
  parse_args py_float cl = Returns args ->
  (occurrences cl "start_epoch" = [] -> start_epoch args = 1)
  /\ (forall vs v, occurrences cl "start_epoch" = (vs ++ [v])%list ->
                   PyStr.int v = Some (start_epoch args))
  /\ (occurrences cl "end_epoch" = [] -> end_epoch args = 1000)
  /\ (forall vs v, occurrences cl "end_epoch" = (vs ++ [v])%list ->
                   PyStr.int v = Some (end_epoch args)).
Proof.
  intros Hargs. apply parse_args_fields in Hargs.
  destruct Hargs as (_ & Hs & He). unfold add_argument in Hs, He.
  repeat split.
  - intros Hnone. rewrite Hnone in Hs. simpl in Hs. congruence.
  - intros vs v Hocc. rewrite Hocc in Hs. now apply convert_all_last in Hs.
  - intros Hnone. rewrite Hnone in He. simpl in He. congruence.
  - intros vs v Hocc. rewrite Hocc in He. now apply convert_all_last in He.
Qed.

Lemma py_range_last (a b : Z) : a < b -> List.last (py_range a b) 0 = b - 1.
Proof.
  intros H. unfold py_range.
  destruct (Z.to_nat (b - a)) as [|n] eqn:Hn; [lia|].
  rewrite seq_S, map_app. cbn [map]. rewrite last_last. lia.
Qed.

Section FurtherProperties.

Context {T : Torch}.

(** ** [train] and [validate] on their own *)

(** X6: on a loader that yields no batch, [train] raises the unbound-local
    error of its [return], whatever its other arguments and the state of
    the objects; it has made no forward pass and no update, and the objects
    are as they were. *)
Theorem train_no_batch_raises (args : Args) (GPUs : list Z) (epoch : Z)
    (w : world) :
  value (train args [] GPUs epoch w)
  = Raises (UnboundLocalError "weighted_loss")
  /\ final (train args [] GPUs epoch w) = w
  /\ updates (calls (train args [] GPUs epoch w)) = 0%nat
  /\ training_passes (calls (train args [] GPUs epoch w)) = [].
Proof.
  unfold train, bind.
  destruct (0 <? Z.of_nat (List.length GPUs)); repeat split.
Qed.

(** X7: [train] never switches a module: every forward pass of a training
    pass runs in the mode the module had when [train] was called, with
    gradient tracking, and both modules are in the same modes afterwards
    (so is the scheduler, which [train] does not touch). *)
Theorem train_keeps_modes (args : Args) (bs : list batch) (GPUs : list Z)
    (epoch : Z) (w : world) :
  Forall (training_call (backbone_training w) (auxiliary_training w))
    (calls (train args bs GPUs epoch w))
  /\ backbone_training (final (train args bs GPUs epoch w))
     = backbone_training w
  /\ auxiliary_training (final (train args bs GPUs epoch w))
     = auxiliary_training w
  /\ scheduler (final (train args bs GPUs epoch w)) = scheduler w.
Proof.
  destruct (train_run args bs GPUs epoch w)
    as (w' & t & Htrain & _ & Hcalls & Hbt & Hat & Hsc & _).
  rewrite Htrain. unfold calls, final. cbn [fst snd]. auto.
Qed.

(** X8: [validate] leaves both modules in evaluation mode, whatever mode
    they were in, and changes nothing else; on a validation set without a
    batch it returns NaN, the mean of no value. *)
Theorem validate_leaves_eval_mode (bs : list batch) (epoch : Z) (w : world) :
  final (validate bs epoch w) = in_eval_mode w
  /\ backbone_training (final (validate bs epoch w)) = false
  /\ auxiliary_training (final (validate bs epoch w)) = false
  /\ value (validate [] epoch w) = Returns NaN.
Proof. rewrite !validate_run. repeat split. Qed.

Lemma train_loop_passes (args : Args) (bs : list batch) :
  forall (last : option (pyfloat * pyfloat)) (m : AverageMeter) (w : world),
    training_passes (calls (train_loop args bs last m w))
    = List.concat (repeat [inr (Backbone, backbone_training w);
                           inr (Auxiliary, auxiliary_training w)]
                     (List.length bs)).
Proof.
  induction bs as [|b bs IH]; intros last m w; [reflexivity|].
  cbn [train_loop]. unfold bind at 1.
  destruct (train_step_run args b w)
    as (out & ang & w1 & Hstep & Hbt & Hat & _).
  rewrite Hstep.
  specialize (IH (Some (criterion (attribute_gt b) (landmark_gt b)
                          (euler_angle_gt b) ang (snd out)
                          (train_batchsize args)))
                (meter_update m
                   (snd (criterion (attribute_gt b) (landmark_gt b)
                           (euler_angle_gt b) ang (snd out)
                           (train_batchsize args)))) w1).
  destruct (train_loop args bs _ _ w1) as [[r w2] t2].
  unfold calls in *. cbn [snd] in *.
  unfold training_passes in *.
  cbn [collect training_reading app List.length repeat List.concat].
  rewrite IH, Hbt, Hat. reflexivity.
Qed.

Lemma train_passes (args : Args) (bs : list batch) (GPUs : list Z) (epoch : Z)
    (w : world) :
  training_passes (calls (train args bs GPUs epoch w))
  = List.concat (repeat [inr (Backbone, backbone_training w);
                         inr (Auxiliary, auxiliary_training w)]
                   (List.length bs)).
Proof.
  rewrite <- (train_loop_passes args bs None new_meter w).
  unfold train, bind.
  destruct (0 <? Z.of_nat (List.length GPUs)); cbn [emit ret];
    destruct (train_loop args bs None new_meter w) as [[[[[wl|] m]|ex] w'] t];
    unfold calls, training_passes; cbn [fst snd ret raise app];
    rewrite ?collect_app; cbn [collect training_reading];
    now rewrite ?app_nil_r.
Qed.

(** X9: what [train] puts into CUDA_VISIBLE_DEVICES is the GPU list
    itself: for a list with at least one id, the first thing [train] does
    is to set the variable, and the string it sets, read the way [main]
    reads [--devices_id], gives the list back. *)
Theorem cuda_visible_devices_round_trip (args : Args) (bs : list batch)
    (GPUs : list Z) (epoch : Z) (w : world) :
  GPUs <> [] ->
  parse_gpus (String.concat "," (map PyStr.str GPUs)) = Some GPUs
  /\ hd_error (calls (train args bs GPUs epoch w))
     = Some (EvSetCudaVisible (String.concat "," (map PyStr.str GPUs))).
Proof.
  intros Hne. split.
  - unfold parse_gpus. rewrite split_comma_concat.
    + apply int_all_str.
    + destruct GPUs; [congruence | discriminate].
    + apply Forall_map, Forall_forall. intros n _. apply commas_str.
  - unfold train, bind.
    destruct GPUs as [|g GPUs]; [congruence|].
    replace (0 <? Z.of_nat (List.length (g :: GPUs))) with true
      by (symmetry; apply Z.ltb_lt; simpl; lia).
    cbn [emit].
    destruct (train_loop args bs None new_meter w) as [[[[[wl|] m]|ex] w'] t];
      reflexivity.
Qed.

(** ** The epoch loop and [main] *)

Lemma collect_In {A : Type} (f : event -> option A) (t : list event)
    (ev : event) (a : A) :
  In ev t -> f ev = Some a -> In a (collect f t).
Proof.
  intros Hin Hf. induction t as [|ev' t IH]; [contradiction|].
  simpl. destruct Hin as [-> | Hin].
  - rewrite Hf. now left.
  - destruct (f ev'); [right|]; now apply IH.
Qed.

Lemma epoch_steps_no_close (epochs : list Z) :
  ~ In StepClose (flat_map epoch_steps epochs).
Proof.
  induction epochs as [|e epochs IH]; simpl; [tauto|].
  intros [H | [H | [H | [H | [H | [H | H]]]]]]; try discriminate.
  now apply IH.
Qed.

Lemma training_call_not_saved (bt at' : bool) (ev : event) :
  training_call bt at' ev -> saved ev = None.
Proof. destruct ev; simpl; intros H; try contradiction; reflexivity. Qed.

Lemma training_call_not_logged (bt at' : bool) (ev : event) :
  training_call bt at' ev -> logged_val_loss ev = None.
Proof. destruct ev; simpl; intros H; try contradiction; reflexivity. Qed.

Lemma updates_validation_calls (bs : list batch) :
  updates (validation_calls bs) = 0%nat.
Proof.
  unfold updates, validation_calls. simpl.
  induction bs as [|b bs IH]; simpl; auto.
Qed.

Lemma training_passes_validation_calls (bs : list batch) :
  collect training_reading (validation_calls bs) = [].
Proof.
  unfold validation_calls. simpl. induction bs as [|b bs IH]; simpl; auto.
Qed.

(** An iteration of the epoch loop that returns. *)
Lemma epoch_body_inv (args : Args) (GPUs : list Z) (tb vb e : Z)
    (w w' : world) (t : list event) :
  epoch_body args GPUs tb vb e w = (Returns tt, w', t) ->
  exists tl w1 t1,
    train args (train_dataloader tb (loader_passes w)) GPUs e (pass_started w)
    = (Returns tl, w1, t1)
    /\ loader_passes w1 = S (loader_passes w)
    /\ w' = after_scheduler
              (np_mean (batch_errors (backbone_sd w1) (val_dataloader vb)))
              (in_eval_mode w1)
    /\ t = (EvTrain e :: t1 ++
            EvSaveCheckpoint (checkpoint_filename (snapshot args) e)
              {| ck_epoch := e; ck_plfd_backbone := backbone_sd w1;
                 ck_auxiliarynet := auxiliary_sd w1 |} ::
            EvValidate e :: validation_calls (val_dataloader vb) ++
            [EvSchedulerStep
               (np_mean (batch_errors (backbone_sd w1) (val_dataloader vb)));
             EvAddScalar "data/weighted_loss" (fst tl) e;
             EvAddScalars "data/loss"
               [("val loss",
                 np_mean (batch_errors (backbone_sd w1) (val_dataloader vb)));
                ("train loss", snd tl)] e])%list.
Proof.
  rewrite epoch_body_run. cbv zeta.
  destruct (train_run args (train_dataloader tb (loader_passes w)) GPUs e
              (pass_started w))
    as (w1 & t1 & Htrain & _ & _ & _ & _ & _ & Hlp).
  destruct (train args (train_dataloader tb (loader_passes w)) GPUs e
              (pass_started w)) as [[r w1'] t1'].
  injection Htrain as Hr -> ->.
  unfold value, final, calls. cbn [fst snd].
  destruct r as [tl|ex]; [|discriminate].
  destruct (can_write (checkpoint_filename (snapshot args) e));
    [|discriminate].
  intros H. injection H as <- <-.
  exists tl, w1, t1. repeat split. exact Hlp.
Qed.

(** What a run of the epoch loop that returns has done, when it starts
    with both modules in the mode [mode]. *)
Lemma epoch_loop_returns_readings (args : Args) (GPUs : list Z) (tb vb : Z)
    (epochs : list Z) :
  forall (mode : bool) (w w' : world) (t : list event),
    backbone_training w = mode -> auxiliary_training w = mode ->
    epoch_loop args GPUs tb vb epochs w = (Returns tt, w', t) ->
    training_passes t = run_reading tb (loader_passes w) mode epochs
    /\ updates t
       = batches_of_passes tb (loader_passes w) (List.length epochs)
    /\ match epochs with
       | [] => checkpoints_saved t = []
       | _ :: _ =>
           exists cks,
             checkpoints_saved t
             = (cks ++ [{| ck_epoch := List.last epochs 0;
                           ck_plfd_backbone := backbone_sd w';
                           ck_auxiliarynet := auxiliary_sd w' |}])%list
       end
    /\ val_losses_logged t
       = map (checkpoint_val_loss vb) (checkpoints_saved t).
Proof.
  induction epochs as [|e epochs IH]; intros mode w w' t Hbt Hat Hloop.
  - cbn in Hloop. injection Hloop as <- <-. repeat split.
  - cbn [epoch_loop] in Hloop. unfold bind in Hloop.
    destruct (epoch_body args GPUs tb vb e w) as [[r1 w1] t1] eqn:Hbody.
    destruct r1 as [[]|ex]; [|discriminate].
    destruct (epoch_loop args GPUs tb vb epochs w1) as [[r2 w2] t2] eqn:Hrest.
    injection Hloop as -> -> <-.
    apply epoch_body_inv in Hbody.
    destruct Hbody as (tl & w0 & t0 & Htrain & Hlp & -> & ->).
    assert (IH' := fun H1 H2 => IH false _ _ _ H1 H2 Hrest).
    specialize (IH' eq_refl eq_refl).
    destruct IH' as (IHpasses & IHupdates & IHsaved & IHlogged).
    cbn [loader_passes after_scheduler in_eval_mode] in IHpasses, IHupdates.
    rewrite Hlp in IHpasses, IHupdates.
    pose proof (train_passes args (train_dataloader tb (loader_passes w))
                  GPUs e (pass_started w)) as Hpasses.
    destruct (train_run args (train_dataloader tb (loader_passes w)) GPUs e
                (pass_started w))
      as (w0' & t0' & Htrain' & Hupd & Hcalls & _).
    rewrite Htrain in Htrain', Hpasses.
    injection Htrain' as _ <- <-.
    unfold calls in Hpasses. cbn [snd pass_started backbone_training
                                    auxiliary_training] in Hpasses.
    rewrite Hbt, Hat in Hpasses.
    assert (Hsaved :
              checkpoints_saved
                (EvTrain e :: t0 ++
                 EvSaveCheckpoint (checkpoint_filename (snapshot args) e)
                   {| ck_epoch := e; ck_plfd_backbone := backbone_sd w0;
                      ck_auxiliarynet := auxiliary_sd w0 |} ::
                 EvValidate e :: validation_calls (val_dataloader vb) ++
                 [EvSchedulerStep
                    (np_mean (batch_errors (backbone_sd w0)
                                (val_dataloader vb)));
                  EvAddScalar "data/weighted_loss" (fst tl) e;
                  EvAddScalars "data/loss"
                    [("val loss",
                      np_mean (batch_errors (backbone_sd w0)
                                 (val_dataloader vb)));
                     ("train loss", snd tl)] e])%list
              = [{| ck_epoch := e; ck_plfd_backbone := backbone_sd w0;
                    ck_auxiliarynet := auxiliary_sd w0 |}]).
    { unfold checkpoints_saved. cbn [collect saved].
      rewrite collect_app.
      rewrite (training_calls_inner _ _ _ t0
                 (training_call_not_saved _ _) Hcalls).
      cbn [collect saved app].
      rewrite collect_app, validation_calls_inner by reflexivity.
      reflexivity. }
    assert (Hlogged :
              val_losses_logged
                (EvTrain e :: t0 ++
                 EvSaveCheckpoint (checkpoint_filename (snapshot args) e)
                   {| ck_epoch := e; ck_plfd_backbone := backbone_sd w0;
                      ck_auxiliarynet := auxiliary_sd w0 |} ::
                 EvValidate e :: validation_calls (val_dataloader vb) ++
                 [EvSchedulerStep
                    (np_mean (batch_errors (backbone_sd w0)
                                (val_dataloader vb)));
                  EvAddScalar "data/weighted_loss" (fst tl) e;
                  EvAddScalars "data/loss"
                    [("val loss",
                      np_mean (batch_errors (backbone_sd w0)
                                 (val_dataloader vb)));
                     ("train loss", snd tl)] e])%list
              = [checkpoint_val_loss vb
                   {| ck_epoch := e; ck_plfd_backbone := backbone_sd w0;
                      ck_auxiliarynet := auxiliary_sd w0 |}]).
    { unfold val_losses_logged. cbn [collect logged_val_loss].
      rewrite collect_app.
      rewrite (training_calls_inner _ _ _ t0
                 (training_call_not_logged _ _) Hcalls).
      cbn [collect logged_val_loss app].
      rewrite collect_app, validation_calls_inner by reflexivity.
      reflexivity. }
    split; [|split; [|split]].
    + unfold training_passes in *.
      cbn [collect training_reading run_reading pass_reading app].
      rewrite !collect_app, Hpasses.
      cbn [collect training_reading].
      rewrite !collect_app, training_passes_validation_calls.
      cbn [collect training_reading app].
      rewrite IHpasses, <- app_assoc. reflexivity.
    + cbn [List.length batches_of_passes].
      change (EvTrain e :: ?a ++ ?b)%list with ([EvTrain e] ++ a ++ b)%list.
      change (EvSaveCheckpoint ?f ?c :: EvValidate ?x :: ?l ++ ?r)%list
        with ([EvSaveCheckpoint f c; EvValidate x] ++ l ++ r)%list.
      rewrite !updates_app, Hupd, updates_validation_calls, IHupdates.
      unfold updates. cbn [filter is_optimizer_step List.length Nat.add].
      now rewrite Nat.add_0_r.
    + unfold checkpoints_saved in *. rewrite collect_app, Hsaved.
      destruct epochs as [|e' epochs'].
      * rewrite IHsaved. cbn in Hrest. injection Hrest as <- _.
        exists []. reflexivity.
      * destruct IHsaved as [cks ->]. eexists (_ :: cks). reflexivity.
    + unfold val_losses_logged, checkpoints_saved in *.
      rewrite !collect_app, map_app. fold (checkpoints_saved t2).
      unfold val_losses_logged, checkpoints_saved in Hsaved, Hlogged.
      now rewrite Hlogged, Hsaved, IHlogged.
Qed.

(** A run of [main] that returns. *)
Lemma main_inv (torch_load : disk) (args : Args) :
  value (main torch_load args) = Returns tt ->
  exists GPUs bsd asd w' t,
    parse_gpus (devices_id args) = Some GPUs
    /\ load_modules torch_load args = Returns (bsd, asd)
    /\ epoch_loop args GPUs (scale_batchsize GPUs (train_batchsize args))
         (scale_batchsize GPUs (val_batchsize args))
         (py_range (start_epoch args) (end_epoch args + 1))
         (fresh_world args bsd asd)
       = (Returns tt, w', t)
    /\ main torch_load args = (Returns tt, Some w', (t ++ [EvWriterClose])%list).
Proof.
  unfold main.
  destruct (parse_gpus (devices_id args)) as [GPUs|]; [|discriminate].
  destruct (load_modules torch_load args) as [[bsd asd]|ex]; [|discriminate].
  cbv zeta. unfold bind. fold (fresh_world args bsd asd).
  destruct (epoch_loop args GPUs _ _ _ (fresh_world args bsd asd))
    as [[r w'] t] eqn:Hloop.
  destruct r as [[]|ex]; [|discriminate].
  intros _. exists GPUs, bsd, asd, w', t. repeat split. exact Hloop.
Qed.

(** X11: the writer is closed exactly by the runs that return: a run that
    an exception stops never calls [writer.close()]. *)
Theorem writer_closed_iff_returns (torch_load : disk) (args : Args) :
  In EvWriterClose (calls (main torch_load args))
  <-> value (main torch_load args) = Returns tt.
Proof.
  split.
  - unfold main.
    destruct (parse_gpus (devices_id args)) as [GPUs|]; [|intros []].
    destruct (load_modules torch_load args) as [[bsd asd]|ex]; [|intros []].
    cbv zeta. unfold bind.
    match goal with
    | |- context [epoch_loop ?a ?g ?tb ?vb ?es ?w] =>
        destruct (epoch_loop_any a g tb vb es w)
          as (r & w' & t & done & rest & srest & Hloop & _ & _ & _ & Hsteps & _);
        rewrite Hloop
    end.
    destruct r as [[]|ex]; [reflexivity|].
    unfold calls. cbn [snd]. intros Hin. exfalso.
    apply (epoch_steps_no_close
             (py_range (start_epoch args) (end_epoch args + 1))).
    rewrite <- Hsteps. apply in_or_app. left.
    unfold steps. now apply (collect_In step_of t EvWriterClose).
  - intros Hret. apply main_inv in Hret.
    destruct Hret as (GPUs & bsd & asd & w' & t & _ & _ & _ & ->).
    unfold calls. cbn [snd]. apply in_or_app. right. now left.
Qed.

(** X12: the name of a checkpoint determines its epoch: two epochs share
    a name only if they are the same epoch; so the checkpoints that a run
    writes all have different names, and none overwrites another. *)
Theorem checkpoint_names_distinct (torch_load : disk) (args : Args) :
  (forall e1 e2 : Z,
      checkpoint_filename (snapshot args) e1
      = checkpoint_filename (snapshot args) e2 <-> e1 = e2)
  /\ NoDup (map fst (checkpoints_written (calls (main torch_load args)))).
Proof.
  split.
  - intros e1 e2. split; [apply checkpoint_filename_injective | now intros ->].
  - destruct (main_any torch_load args)
      as (done & rest & srest & Hsplit & _ & Hwritten & _).
    rewrite Hwritten, map_map. cbn [fst].
    apply Injective_map_NoDup.
    + intros e1 e2. apply checkpoint_filename_injective.
    + apply (NoDup_app_remove_r done rest). rewrite <- Hsplit.
      apply py_range_NoDup.
Qed.

(** X13: in a run that returns after at least one epoch, the last
    checkpoint saved is that of [end_epoch] and holds the tensors of both
    modules as the run leaves them: validation, the scheduler and the logs
    that follow the save do not change them. *)
Theorem last_checkpoint_is_final_model (torch_load : disk) (args : Args) :
  value (main torch_load args) = Returns tt ->
  start_epoch args <= end_epoch args ->
  exists (w' : world) (cks : list (checkpoint state_dict)),
    final (main torch_load args) = Some w'
    /\ checkpoints_saved (calls (main torch_load args))
       = (cks ++ [{| ck_epoch := end_epoch args;
                     ck_plfd_backbone := backbone_sd w';
                     ck_auxiliarynet := auxiliary_sd w' |}])%list.
Proof.
  intros Hret Hle. apply main_inv in Hret.
  destruct Hret as (GPUs & bsd & asd & w' & t & _ & _ & Hloop & ->).
  apply (epoch_loop_returns_readings _ _ _ _ _ true) in Hloop;
    [|reflexivity|reflexivity].
  destruct Hloop as (_ & _ & Hsaved & _).
  pose proof (py_range_last (start_epoch args) (end_epoch args + 1)) as Hlast.
  destruct (py_range (start_epoch args) (end_epoch args + 1)) as [|e es] eqn:Hr.
  - apply (f_equal (@List.length Z)) in Hr.
    rewrite py_range_length in Hr. simpl in Hr. lia.
  - destruct Hsaved as [cks Hsaved]. exists w', cks.
    split; [reflexivity|].
    unfold calls, checkpoints_saved in *. cbn [snd].
    rewrite collect_app, Hsaved. cbn [collect saved].
    rewrite app_nil_r, Hlast by lia.
    replace (end_epoch args + 1 - 1) with (end_epoch args) by lia.
    reflexivity.
Qed.

(** X14: in a run that returns, the forward passes of the training pass
    of the first epoch run with both modules in training mode, and those of
    the training pass of every later epoch run with both modules in
    evaluation mode; each pass makes one forward pass of each module per
    batch of its iteration over the training loader. *)
Theorem training_mode_in_first_epoch_only (torch_load : disk) (args : Args)
    (GPUs : list Z) :
  value (main torch_load args) = Returns tt ->
  parse_gpus (devices_id args) = Some GPUs ->
  training_passes (calls (main torch_load args))
  = run_reading (scale_batchsize GPUs (train_batchsize args)) 0 true
      (py_range (start_epoch args) (end_epoch args + 1)).
Proof.
  intros Hret HG. apply main_inv in Hret.
  destruct Hret as (GPUs' & bsd & asd & w' & t & HG' & _ & Hloop & ->).
  rewrite HG in HG'. injection HG' as <-.
  apply (epoch_loop_returns_readings _ _ _ _ _ true) in Hloop;
    [|reflexivity|reflexivity].
  destruct Hloop as (Hpasses & _).
  unfold calls, training_passes in *. cbn [snd].
  rewrite collect_app, Hpasses. cbn [collect training_reading].
  now rewrite app_nil_r.
Qed.

(** X15: in a run that returns, the optimizer is stepped once for every
    batch of every pass over the training loader, one pass per epoch of
    the range, and at no other time. *)
Theorem one_update_per_training_batch (torch_load : disk) (args : Args)
    (GPUs : list Z) :
  value (main torch_load args) = Returns tt ->
  parse_gpus (devices_id args) = Some GPUs ->
  updates (calls (main torch_load args))
  = batches_of_passes (scale_batchsize GPUs (train_batchsize args)) 0
      (Z.to_nat (end_epoch args + 1 - start_epoch args)).
Proof.
  intros Hret HG. apply main_inv in Hret.
  destruct Hret as (GPUs' & bsd & asd & w' & t & HG' & _ & Hloop & ->).
  rewrite HG in HG'. injection HG' as <-.
  apply (epoch_loop_returns_readings _ _ _ _ _ true) in Hloop;
    [|reflexivity|reflexivity].
  destruct Hloop as (_ & Hupdates & _).
  unfold calls. cbn [snd].
  rewrite updates_app, Hupdates, py_range_length.
  unfold updates. cbn. now rewrite Nat.add_0_r.
Qed.

(** X16: in a run that returns, the validation loss logged for an epoch
    is the landmark error, over the validation set, of exactly the backbone
    tensors saved in that epoch's checkpoint: the epochs and losses logged
    are, in order, those of the checkpoints saved. *)
Theorem logged_val_loss_is_of_checkpoint (torch_load : disk) (args : Args)
    (GPUs : list Z) :
  value (main torch_load args) = Returns tt ->
  parse_gpus (devices_id args) = Some GPUs ->
  val_losses_logged (calls (main torch_load args))
  = map (checkpoint_val_loss (scale_batchsize GPUs (val_batchsize args)))
      (checkpoints_saved (calls (main torch_load args))).
Proof.
  intros Hret HG. apply main_inv in Hret.
  destruct Hret as (GPUs' & bsd & asd & w' & t & HG' & _ & Hloop & ->).
  rewrite HG in HG'. injection HG' as <-.
  apply (epoch_loop_returns_readings _ _ _ _ _ true) in Hloop;
    [|reflexivity|reflexivity].
  destruct Hloop as (_ & _ & _ & Hlogged).
  unfold calls, val_losses_logged, checkpoints_saved in *. cbn [snd].
  rewrite !collect_app, Hlogged. cbn [collect logged_val_loss saved].
  now rewrite !app_nil_r.
Qed.

End FurtherProperties.

(** * The script on the small instance *)

Example str2bool_YES : str2bool "YES" = Returns true.
Proof. reflexivity. Qed.
Example str2bool_F : str2bool "F" = Returns false.
Proof. reflexivity. Qed.
Example str2bool_maybe :
  str2bool "maybe" = Raises (ArgumentTypeError "Boolean value expected").
Proof. reflexivity. Qed.
Example str2bool_default : type_str2bool "false" = Some false.
Proof. reflexivity. Qed.
Example int_examples :
  PyStr.int " 12 " = Some 12 /\ PyStr.int "-1_000" = Some (-1000) /\
  PyStr.int "0.0001" = None /\ PyStr.int "1__0" = None /\
  PyStr.int EmptyString = None /\ PyStr.int "+" = None /\
  PyStr.int "007" = Some 7.
Proof. repeat split; reflexivity. Qed.
Example str_examples :
  PyStr.str 0 = "0" /\ PyStr.str 12 = "12" /\ PyStr.str (-3) = "-3".
Proof. repeat split; reflexivity. Qed.
Example join_examples :
  PyStr.os_path_join "./checkpoint/snapshot/" "c.pth.tar"
    = "./checkpoint/snapshot/c.pth.tar" /\
  PyStr.os_path_join "snap" "c.pth.tar" = "snap/c.pth.tar" /\
  PyStr.os_path_join EmptyString "c.pth.tar" = "c.pth.tar".
Proof. repeat split; reflexivity. Qed.
Example split_examples :
  PyStr.split_comma "0" = ["0"] /\ PyStr.split_comma "0,1" = ["0"; "1"] /\
  PyStr.split_comma EmptyString = [EmptyString] /\
  PyStr.split_comma "0," = ["0"; EmptyString].
Proof. repeat split; reflexivity. Qed.

(** On a loader that yields no batch, [train] reads [weighted_loss]
    before any assignment. *)
Example train_no_batch :
  value (@train (toy one_batch_loader) two_epochs [] [0] 1 toy_world)
  = Raises (UnboundLocalError "weighted_loss").
Proof. reflexivity. Qed.

Example main_no_batch :
  value (@main (toy no_batch_loader) empty_disk two_epochs)
  = Raises (UnboundLocalError "weighted_loss")
  /\ steps (calls (@main (toy no_batch_loader) empty_disk two_epochs))
     = [StepTrain 1].
Proof. split; vm_compute; reflexivity. Qed.

Example two_epochs_steps :
  steps (calls (@main (toy one_batch_loader) empty_disk two_epochs))
  = [StepTrain 1; StepCheckpoint 1; StepValidate 1; StepScheduler;
     StepLogWeighted 1; StepLogLosses 1;
     StepTrain 2; StepCheckpoint 2; StepValidate 2; StepScheduler;
     StepLogWeighted 2; StepLogLosses 2; StepClose].
Proof. vm_compute. reflexivity. Qed.

Example two_epochs_checkpoints :
  checkpoints_written (calls (@main (toy one_batch_loader) empty_disk two_epochs))
  = [("snap/checkpoint_epoch_1.pth.tar", 1);
     ("snap/checkpoint_epoch_2.pth.tar", 2)].
Proof. vm_compute. reflexivity. Qed.

(** C1: in a run of two epochs, the training pass of epoch 1 runs with
    both modules in training mode, and the training pass of epoch 2 runs
    with both in evaluation mode: the validation pass of epoch 1 switched
    them and nothing switches them back. *)
Theorem second_epoch_trains_in_eval_mode :
  value (@main (toy one_batch_loader) empty_disk two_epochs) = Returns tt
  /\ training_passes
       (calls (@main (toy one_batch_loader) empty_disk two_epochs))
     = [inl 1; inr (Backbone, true); inr (Auxiliary, true);
        inl 2; inr (Backbone, false); inr (Auxiliary, false)].
Proof. split; vm_compute; reflexivity. Qed.

Lemma str2bool_spec_witness : str2bool "Yes" = Returns true.
Proof.
  apply (proj1 (str2bool_spec "Yes")). simpl. left. reflexivity.
Defined.

Lemma validate_spec_witness :
  value (@validate (toy one_batch_loader) toy_val_batches 1 toy_world)
  = Returns (Fin (Qsum toy_val_errors
                  / inject_Z (Z.of_nat (List.length toy_val_errors)))).
Proof.
  apply (proj2 (proj2 (@validate_spec (toy one_batch_loader)
                         toy_val_batches 1 toy_world))).
  - reflexivity.
  - discriminate.
Defined.

Lemma validate_frame_witness :
  value (@validate (toy one_batch_loader) toy_val_batches 2 toy_world_later)
  = value (@validate (toy one_batch_loader) toy_val_batches 1 toy_world).
Proof.
  apply (proj2 (proj2 (proj2 (proj2
           (@validate_frame (toy one_batch_loader) toy_val_batches 1 2
              toy_world))))).
  reflexivity.
Defined.

Lemma train_spec_witness :
  final (@train (toy one_batch_loader) two_epochs (one_batch_loader 0) [0] 1
           toy_world)
  = @after_pass (toy one_batch_loader) two_epochs (one_batch_loader 0)
      toy_world
  /\ value (@train (toy one_batch_loader) two_epochs (one_batch_loader 0)
              [0] 1 toy_world)
     = Returns (List.last
                  (@losses_of_pass (toy one_batch_loader) two_epochs
                     (one_batch_loader 0) toy_world) (NaN, NaN)).
Proof.
  destruct (@train_spec (toy one_batch_loader) two_epochs
              (one_batch_loader 0) [0] 1 toy_world)
    as (_ & _ & Hfinal & _ & _ & Hvalue & _).
  - discriminate.
  - split; [exact Hfinal | exact Hvalue].
Defined.

Lemma epoch_steps_in_order_witness :
  exists srest,
    (steps (calls (@main (toy one_batch_loader) empty_disk two_epochs))
     ++ srest)%list
    = (flat_map epoch_steps [1; 2] ++ [StepClose])%list
    /\ srest = [].
Proof.
  destruct (proj1 (@epoch_steps_in_order (toy one_batch_loader) empty_disk
                     two_epochs)) as [srest [Hsteps Hret]].
  exists srest. split; [exact Hsteps|]. apply Hret. vm_compute. reflexivity.
Defined.

Lemma epoch_loop_iterations_witness :
  value (@main (toy one_batch_loader) empty_disk two_epochs) = Returns tt
  /\ Z.of_nat (List.length
                 (epochs_completed
                    (calls (@main (toy one_batch_loader) empty_disk
                              two_epochs)))) = 2 - 1 + 1.
Proof.
  assert (H : value (@main (toy one_batch_loader) empty_disk two_epochs)
              = Returns tt).
  { apply (proj2 (@epoch_loop_iterations (toy one_batch_loader) empty_disk
                    two_epochs) [0] (10, 20)).
    - reflexivity.
    - reflexivity.
    - intros k. discriminate.
    - intros e _. reflexivity. }
  split; [exact H|].
  apply (proj1 (@epoch_loop_iterations (toy one_batch_loader) empty_disk
                  two_epochs) H).
  simpl. lia.
Defined.

(** Two runs asked for the epochs 1 and 2 that an exception stops before
    any iteration is complete.  With no snapshot directory, [torch.save]
    raises in the first iteration, after the training pass.  With the GPU
    list "0,", [int('')] raises before the loop is reached. *)
Lemma run_stopped_by_exception :
  py_range (start_epoch no_snapshot_dir) (end_epoch no_snapshot_dir + 1)
  = [1; 2]
  /\ value (@main (toy one_batch_loader) empty_disk no_snapshot_dir)
     = Raises (FileNotFoundError "missing/checkpoint_epoch_1.pth.tar")
  /\ steps (calls (@main (toy one_batch_loader) empty_disk no_snapshot_dir))
     = [StepTrain 1]
  /\ epochs_completed
       (calls (@main (toy one_batch_loader) empty_disk no_snapshot_dir))
     = []
  /\ py_range (start_epoch bad_gpus) (end_epoch bad_gpus + 1) = [1; 2]
  /\ value (@main (toy one_batch_loader) empty_disk bad_gpus)
     = Raises ValueError
  /\ calls (@main (toy one_batch_loader) empty_disk bad_gpus) = [].
Proof. repeat split; vm_compute; reflexivity. Qed.


Lemma base_lr_is_int_typed_witness :
  @script (toy one_batch_loader) empty_disk [("base_lr", "0.0001")]
  = (Raises (SystemExit 2), None, []).
Proof.
  apply (proj1 (@base_lr_is_int_typed (toy one_batch_loader) empty_disk
                  [("base_lr", "0.0001")]) "0.0001").
  - left. reflexivity.
  - reflexivity.
Defined.

Example base_lr_default :
  rbind (parse_args (fun _ => None) []) (fun a => Returns (base_lr a))
  = Returns (PyFloat (Fin (1 # 10000))).
Proof. reflexivity. Qed.

Example base_lr_integer :
  rbind (parse_args (fun _ => None) [("base_lr", "1")])
    (fun a => Returns (base_lr a))
  = Returns (PyInt 1).
Proof. reflexivity. Qed.

(** ** The further properties on the small instance *)

Lemma gpus_never_empty_witness :
  scale_batchsize [0; 1] 128 = 128 * Z.of_nat (List.length [0; 1]).
Proof.
  destruct (proj1 (gpus_never_empty "0,1") [0; 1] eq_refl)
    as (_ & _ & _ & Hscale).
  exact (Hscale 128).
Defined.

Lemma test_initial_is_str2bool_witness :
  parse_args (fun _ => None) [("test_initial", "maybe")]
  = Raises (SystemExit 2).
Proof.
  apply (proj1 (test_initial_is_str2bool (fun _ => None)
                  [("test_initial", "maybe")]) "maybe").
  - left. reflexivity.
  - intros b H. vm_compute in H. discriminate.
Defined.

Lemma epoch_range_of_command_line_witness :
  PyStr.int "2" = Some (start_epoch from_2_to_5)
  /\ PyStr.int "5" = Some (end_epoch from_2_to_5).
Proof.
  destruct (epoch_range_of_command_line (fun _ => None)
              [("start_epoch", "3"); ("end_epoch", "5"); ("start_epoch", "2")]
              from_2_to_5 eq_refl) as (_ & Hstart & _ & Hend).
  split.
  - apply (Hstart ["3"]). reflexivity.
  - apply (Hend []). reflexivity.
Defined.

Lemma cuda_visible_devices_round_trip_witness :
  parse_gpus (String.concat "," (map PyStr.str [0; 1])) = Some [0; 1]
  /\ hd_error (calls (@train (toy one_batch_loader) two_epochs
                        (one_batch_loader 0) [0; 1] 1 toy_world))
     = Some (EvSetCudaVisible (String.concat "," (map PyStr.str [0; 1]))).
Proof.
  apply (@cuda_visible_devices_round_trip (toy one_batch_loader)).
  discriminate.
Defined.

Lemma last_checkpoint_is_final_model_witness :
  exists w' cks,
    final (@main (toy growing_loader) empty_disk two_epochs) = Some w'
    /\ checkpoints_saved
         (calls (@main (toy growing_loader) empty_disk two_epochs))
       = (cks ++ [Build_checkpoint _ 2 (@backbone_sd (toy growing_loader) w')
                    (@auxiliary_sd (toy growing_loader) w')])%list.
Proof.
  apply (@last_checkpoint_is_final_model (toy growing_loader) empty_disk
           two_epochs).
  - vm_compute. reflexivity.
  - simpl. lia.
Defined.

Lemma training_mode_in_first_epoch_only_witness :
  training_passes (calls (@main (toy growing_loader) empty_disk two_epochs))
  = [inl 1; inr (Backbone, true); inr (Auxiliary, true);
     inl 2; inr (Backbone, false); inr (Auxiliary, false);
     inr (Backbone, false); inr (Auxiliary, false)].
Proof.
  apply (@training_mode_in_first_epoch_only (toy growing_loader) empty_disk
           two_epochs [0]).
  - vm_compute. reflexivity.
  - reflexivity.
Defined.

Lemma one_update_per_training_batch_witness :
  updates (calls (@main (toy growing_loader) empty_disk two_epochs)) = 3%nat.
Proof.
  apply (@one_update_per_training_batch (toy growing_loader) empty_disk
           two_epochs [0]).
  - vm_compute. reflexivity.
  - reflexivity.
Defined.

Lemma logged_val_loss_is_of_checkpoint_witness :
  val_losses_logged
    (calls (@main (toy growing_loader) empty_disk two_epochs))
  = map (@checkpoint_val_loss (toy growing_loader) 8)
      (checkpoints_saved
         (calls (@main (toy growing_loader) empty_disk two_epochs))).
Proof.
  apply (@logged_val_loss_is_of_checkpoint (toy growing_loader) empty_disk
           two_epochs [0]).
  - vm_compute. reflexivity.
  - reflexivity.
Defined.

Lemma str2bool_ignores_case_witness : str2bool "yEs" = str2bool "Yes".
Proof.
  apply (proj2 (str2bool_ignores_case "yEs") "Yes").
  simpl. unfold same_letter. repeat split; auto.
Defined.
